(** * Fixed-income dashboard: mock market data and analytics formulas

    A shallow embedding of [MockDataGenerator] and [AnalyticsEngine] from
    [fixed-income-app1.py], and the properties its specification states
    about them.

    Modelling conventions.
    - Python [int] is [Z].  Python [float] is idealised as an exact
      rational ([Q]): sums, products and quotients are exact, and
      [round(x, n)] is rounding to the nearest multiple of [10^-n], ties
      to the even neighbour (what Python documents for [round]).
      Equality of floats is [Qeq].
    - The module-level generator of [random] is a tape of raw draws in
      [[0, 1)], one cell per call; [uniform], [randint] and [choice] are
      derived from a raw draw the way CPython derives them from
      [random()] (resp. from a uniform index).  The tape and the read
      position are threaded through every call, in source order.
    - Exceptions are the [Raised] branch of [outcome].
    - [datetime.now()] is an input of the functions that read the clock. *)

From Stdlib Require Import ZArith QArith Qround Qabs.
From Stdlib Require Import List String Ascii Bool Sorted.
From Stdlib Require Import DecimalString DecimalPos DecimalZ.
From Stdlib Require Import Lia Lqa.
Import ListNotations.

Local Open Scope Z_scope.

(* ===================================================================== *)
(** ** Python numbers *)
(* ===================================================================== *)

Module PyNum.

(** Nearest integer, ties to even. *)
Definition round_half_even (q : Q) : Z :=
  let f := Qfloor q in
  match Qcompare (q - inject_Z f) (1 # 2) with
  | Lt => f
  | Gt => f + 1
  | Eq => if Z.even f then f else f + 1
  end.

Definition pow10 (n : nat) : Q := inject_Z (10 ^ Z.of_nat n).

(** [round(x, ndigits)] on a float. *)
Definition round (x : Q) (ndigits : nat) : Q :=
  (inject_Z (round_half_even (x * pow10 ndigits)) / pow10 ndigits)%Q.

(** [str(i)] for an int. *)
Definition str (i : Z) : string := NilZero.string_of_int (Z.to_int i).

(** [s.zfill(width)]: pad with zeros on the left, after a sign if any. *)
Definition zeros (n : nat) : string := string_of_list_ascii (repeat "0"%char n).

Definition zfill (s : string) (width : nat) : string :=
  let pad := zeros (width - String.length s) in
  match s with
  | String c rest =>
      if (Ascii.eqb c "-" || Ascii.eqb c "+")%bool
      then String c (pad ++ rest)
      else (pad ++ s)%string
  | EmptyString => pad
  end.

(** [c.upper()] on an ASCII letter. *)
Definition upper_ascii (c : ascii) : ascii :=
  let n := nat_of_ascii c in
  if ((97 <=? n) && (n <=? 122))%nat then ascii_of_nat (n - 32) else c.

Fixpoint upper (s : string) : string :=
  match s with
  | EmptyString => EmptyString
  | String c rest => String (upper_ascii c) (upper rest)
  end.

(** [needle in hay] on strings. *)
Fixpoint contains (needle hay : string) : bool :=
  (String.prefix needle hay ||
   match hay with
   | EmptyString => false
   | String _ rest => contains needle rest
   end)%bool.

(** [repr] of a float that carries at most two decimals, as an f-string
    prints it: the integer part, a point, and the decimals without a
    trailing zero (but at least one digit). *)
Definition repr_2dp (x : Q) : string :=
  let k := round_half_even (x * pow10 2) in
  let a := Z.abs k in
  let sign := if k <? 0 then "-"%string else EmptyString in
  let frac := a mod 100 in
  let digits :=
    if frac mod 10 =? 0 then str (frac / 10) else zfill (str frac) 2 in
  (sign ++ str (a / 100) ++ "." ++ digits)%string.

End PyNum.

(* ===================================================================== *)
(** ** Exceptions and the state of [random] *)
(* ===================================================================== *)

Inductive exn : Type :=
| IndexError
| ValueError.

Inductive outcome (A : Type) : Type :=
| Returned (a : A)
| Raised (e : exn).
Arguments Returned {A} a.
Arguments Raised {A} e.

Module PyRandom.

(** The generator: the raw draws still to come and how many were read. *)
Record rng : Type := mkRng { tape : nat -> Q; pos : nat }.

Definition M (A : Type) : Type := rng -> outcome (A * rng).

Definition ret {A} (a : A) : M A := fun g => Returned (a, g).

Definition bind {A B} (m : M A) (k : A -> M B) : M B :=
  fun g =>
    match m g with
    | Returned (a, g') => k a g'
    | Raised e => Raised e
    end.

Definition raise {A} (e : exn) : M A := fun _ => Raised e.

(** [random.random()]: the next raw draw. *)
Definition random : M Q :=
  fun g => Returned (tape g (pos g), mkRng (tape g) (S (pos g))).

(** [random.uniform(a, b)] is [a + (b - a) * random()]. *)
Definition uniform_of (a b r : Q) : Q := (a + (b - a) * r)%Q.

Definition uniform (a b : Q) : M Q :=
  bind random (fun r => ret (uniform_of a b r)).

(** A uniform index below [n].  CPython draws it from [getrandbits]
    in a loop; here one raw draw stands for that loop, so the value is
    modelled and the number of raw bits consumed is not. *)
Definition randbelow (n : Z) : M Z :=
  bind random (fun r => ret (Qfloor (r * inject_Z n))).

(** [random.randint(a, b)]: [ValueError] on an empty range. *)
Definition randint (a b : Z) : M Z :=
  if b <? a then raise ValueError
  else bind (randbelow (b - a + 1)) (fun k => ret (a + k)).

(** [random.choice(seq)]: [IndexError] on an empty sequence. *)
Definition choice {A} (seq : list A) : M A :=
  match seq with
  | [] => raise IndexError
  | _ :: _ =>
      bind (randbelow (Z.of_nat (List.length seq))) (fun k =>
        match nth_error seq (Z.to_nat k) with
        | Some x => ret x
        | None => raise IndexError
        end)
  end.

(** Every raw draw lies in [[0, 1)]. *)
Definition valid (g : rng) : Prop :=
  forall n, (0 <= tape g n /\ tape g n < 1)%Q.

End PyRandom.

Declare Scope py_scope.
Delimit Scope py_scope with py.
Notation "x <- c1 ;; c2" := (PyRandom.bind c1 (fun x => c2))
  (at level 100, c1 at next level, right associativity) : py_scope.

(** [for x in xs: body], the loop state passed along. *)
Fixpoint for_each {A S : Type} (xs : list A)
    (body : A -> S -> PyRandom.M S) (s : S) : PyRandom.M S :=
  match xs with
  | [] => PyRandom.ret s
  | x :: rest => (s' <- body x s ;; for_each rest body s')%py
  end.

(** [range(n)]: empty when [n <= 0]. *)
Definition py_range (n : Z) : list Z := map Z.of_nat (seq 0 (Z.to_nat n)).

(* ===================================================================== *)
(** ** Dates *)
(* ===================================================================== *)

Module PyDate.

(** A naive [datetime] (and a pandas [Timestamp]): the proleptic
    Gregorian day number of [date.toordinal()] and the microseconds
    since midnight.  The calendar is taken unbounded. *)
Record datetime : Type := mkDatetime { ordinal : Z; micros : Z }.

Definition micros_per_day : Z := 86400000000.

(** [dt + timedelta(days=n)]. *)
Definition add_days (dt : datetime) (n : Z) : datetime :=
  mkDatetime (ordinal dt + n) (micros dt).

(** Position on the time line, in microseconds. *)
Definition instant (dt : datetime) : Z :=
  ordinal dt * micros_per_day + micros dt.

(** Year, month and day of a day number. *)
Definition ymd (ord : Z) : Z * Z * Z :=
  let z := ord + 305 in
  let era := z / 146097 in
  let doe := z - era * 146097 in
  let yoe := (doe - doe / 1460 + doe / 36524 - doe / 146096) / 365 in
  let doy := doe - (365 * yoe + yoe / 4 - yoe / 100) in
  let mp := (5 * doy + 2) / 153 in
  let d := doy - (153 * mp + 2) / 5 + 1 in
  let m := if mp <? 10 then mp + 3 else mp - 9 in
  let y := yoe + era * 400 + (if m <=? 2 then 1 else 0) in
  (y, m, d).

Definition year (dt : datetime) : Z := fst (fst (ymd (ordinal dt))).

(** [dt.strftime("%Y-%m-%d")]. *)
Definition strftime_ymd (dt : datetime) : string :=
  let '(y, m, d) := ymd (ordinal dt) in
  (PyNum.zfill (PyNum.str y) 4 ++ "-" ++ PyNum.zfill (PyNum.str m) 2
     ++ "-" ++ PyNum.zfill (PyNum.str d) 2)%string.

End PyDate.

(* ===================================================================== *)
(** ** Data model *)
(* ===================================================================== *)

(** The [Bond] dataclass. *)
Record Bond : Type := mkBond {
  isin : string;
  ticker : string;
  coupon : Q;
  maturity : string;
  yield_value : Q;
  spread : Z;
  duration : Q;
  rating : string;
  sector : string;
  currency : string;
  price : Q;
  issue_size : Z
}.

(** One row of the frame built by [generate_historical_data]. *)
Record HistoricalPoint : Type := mkPoint {
  h_date : PyDate.datetime;
  h_yield_value : Q;
  h_spread : Z;
  h_price : Q
}.

(** The dictionary returned by [generate_yield_curve]. *)
Record YieldCurve : Type := mkCurve {
  tenors : list Q;
  yields : list Q
}.

(* ===================================================================== *)
(** ** MockDataGenerator *)
(* ===================================================================== *)

Module MockDataGenerator.
Import PyRandom.
Local Open Scope py_scope.
Local Open Scope string_scope.

Definition SECTORS : list string :=
  ["Government"; "Corporate IG"; "Corporate HY"; "Municipal"; "Agency";
   "Sovereign"].
Definition RATINGS : list string :=
  ["AAA"; "AA+"; "AA"; "AA-"; "A+"; "A"; "A-"; "BBB+"; "BBB"; "BBB-"].
Definition CURRENCIES : list string := ["USD"; "EUR"; "GBP"; "JPY"; "CHF"].

Definition ISSUE_SIZES : list Z :=
  [500000000; 1000000000; 2000000000; 5000000000]%Z.

(** The rating premium added to the base yield. *)
Definition rating_premium (rating : string) : Q :=
  if PyNum.contains "BBB" rating then 1.5%Q
  else if PyNum.contains "A" rating then 0.5%Q
  else 0%Q.

(** The body of the loop of [generate_bonds], for index [i]. *)
Definition generate_bond (base_date : PyDate.datetime) (i : Z) : M Bond :=
  maturity_years <- randint 1 30 ;;
  let maturity_date := PyDate.add_days base_date (365 * maturity_years) in
  sector <- choice SECTORS ;;
  rating <- choice RATINGS ;;
  let base_yield :=
    (2.0 + inject_Z maturity_years * 0.1 + rating_premium rating)%Q in
  noise <- uniform (-0.5) 0.5 ;;
  let yield_value := PyNum.round (base_yield + noise) 2 in
  ticker_coupon <- uniform 1 6 ;;
  coupon <- uniform 1 6 ;;
  spread <- randint 10 300 ;;
  duration_noise <- uniform (-1) 1 ;;
  currency <- choice CURRENCIES ;;
  price_noise <- uniform (-2) 2 ;;
  issue_size <- choice ISSUE_SIZES ;;
  ret {|
    isin := "XS" ++ PyNum.zfill (PyNum.str i) 10;
    ticker :=
      PyNum.upper (substring 0 3 sector) ++ " "
        ++ PyNum.repr_2dp (PyNum.round ticker_coupon 2) ++ "% "
        ++ PyNum.str (PyDate.year maturity_date);
    coupon := PyNum.round coupon 2;
    maturity := PyDate.strftime_ymd maturity_date;
    yield_value := yield_value;
    spread := spread;
    duration :=
      PyNum.round (inject_Z maturity_years * 0.85 + duration_noise) 1;
    rating := rating;
    sector := sector;
    currency := currency;
    price := (100 - (yield_value - 3) * 5 + price_noise)%Q;
    issue_size := issue_size
  |}.

(** [generate_bonds(count)], the clock reading [base_date] given. *)
Definition generate_bonds (base_date : PyDate.datetime) (count : Z)
  : M (list Bond) :=
  for_each (py_range count)
    (fun i bonds =>
       bond <- generate_bond base_date i ;;
       ret (bonds ++ [bond])%list)
    [].

(** The state of the loop of [generate_historical_data]. *)
Record walk : Type := mkWalk {
  base_yield : Q;
  base_spread : Z;
  data : list HistoricalPoint
}.

Definition historical_step (date : PyDate.datetime) (w : walk) : M walk :=
  yield_change <- uniform (-0.05) 0.05 ;;
  spread_change <- randint (-2) 2 ;;
  let base_yield := (base_yield w + yield_change)%Q in
  let base_spread := (base_spread w + spread_change)%Z in
  ret {|
    base_yield := base_yield;
    base_spread := base_spread;
    data := (data w ++ [ {|
      h_date := date;
      h_yield_value := PyNum.round base_yield 3;
      h_spread := base_spread;
      h_price := PyNum.round (100 - (base_yield - 3) * 5) 2
    |} ])%list
  |}.

(** [periods] timestamps one calendar day apart, the last one [end_]. *)
Definition days_ending (end_ : PyDate.datetime) (periods : Z)
  : list PyDate.datetime :=
  map (fun k => PyDate.add_days end_ (k - (periods - 1))) (py_range periods).

Section Historical.

(** What [pd.date_range] does when [periods] is negative.  pandas is
    not part of the program; for [periods >= 0] its documented
    behaviour is modelled below, and its treatment of a negative
    [periods] is left open. *)
Variable date_range_negative :
  PyDate.datetime -> Z -> outcome (list PyDate.datetime).

(** [pd.date_range(end=end_, periods=periods, freq='D')]: [periods]
    timestamps one day apart, the last one [end_]. *)
Definition date_range (end_ : PyDate.datetime) (periods : Z)
  : outcome (list PyDate.datetime) :=
  if (periods <? 0)%Z then date_range_negative end_ periods
  else Returned (days_ending end_ periods).

(** [generate_historical_data(isin, days)], the clock reading [now]
    given. *)
Definition generate_historical_data (now : PyDate.datetime)
    (isin : string) (days : Z) : M (list HistoricalPoint) :=
  match date_range now days with
  | Raised e => raise e
  | Returned dates =>
      w <- for_each dates historical_step
             {| base_yield := 3.5; base_spread := 50; data := [] |} ;;
      ret (data w)
  end.

End Historical.

End MockDataGenerator.

(* ===================================================================== *)
(** ** AnalyticsEngine *)
(* ===================================================================== *)

Module AnalyticsEngine.
Import PyRandom.
Local Open Scope py_scope.

Definition calculate_total_return (bond : Bond) (holding_period_days : Z)
  : M Q :=
  let coupon_income :=
    ((coupon bond / 100) * (inject_Z holding_period_days / 365))%Q in
  draw <- uniform (-2) 2 ;;
  let price_return := (draw / 100)%Q in
  ret (PyNum.round ((coupon_income + price_return) * 100) 2).

Definition calculate_spread_change (current_spread historical_spread : Z)
  : Z :=
  current_spread - historical_spread.

Definition TENORS : list Q :=
  [0.25; 0.5; 1; 2; 3; 5; 7; 10; 15; 20; 30]%Q.

Definition USD_RATES : list Q :=
  [3.5; 3.7; 3.9; 4.0; 4.1; 4.2; 4.3; 4.4; 4.5; 4.6; 4.7]%Q.

Definition OTHER_RATES : list Q :=
  [2.5; 2.7; 2.9; 3.0; 3.1; 3.2; 3.3; 3.4; 3.5; 3.6; 3.7]%Q.

Definition base_rates (currency : string) : list Q :=
  if String.eqb currency "USD" then USD_RATES else OTHER_RATES.

(** [[rate + random.uniform(-0.1, 0.1) for rate in rates]]. *)
Fixpoint perturb (rates : list Q) : M (list Q) :=
  match rates with
  | [] => ret []
  | rate :: rest =>
      u <- uniform (-0.1) 0.1 ;;
      ys <- perturb rest ;;
      ret ((rate + u)%Q :: ys)
  end.

Definition generate_yield_curve (currency : string) : M YieldCurve :=
  ys <- perturb (base_rates currency) ;;
  ret {| tenors := TENORS;
         yields := map (fun y => PyNum.round y 3) ys |}.

End AnalyticsEngine.

(* ===================================================================== *)
(** ** Dictionaries and rows *)
(* ===================================================================== *)

(** A value held in a dictionary or written to a CSV cell. *)
Inductive pyvalue : Type :=
| PyStr (s : string)
| PyInt (z : Z)
| PyFloat (q : Q).

Module PyDict.

(** A [dict] with string keys, in insertion order. *)
Definition dict (V : Type) : Type := list (string * V).

(** [d.get(key, default)]. *)
Fixpoint get {V} (d : dict V) (key : string) (default : V) : V :=
  match d with
  | [] => default
  | (k, v) :: rest => if String.eqb k key then v else get rest key default
  end.

(** [d[key] = v]: replaces the value of a key already there, else adds
    the key at the end. *)
Fixpoint set {V} (d : dict V) (key : string) (v : V) : dict V :=
  match d with
  | [] => [(key, v)]
  | (k, v0) :: rest =>
      if String.eqb k key then (k, v) :: rest else (k, v0) :: set rest key v
  end.

(** [dataclasses.asdict(bond)]. *)
Definition asdict (b : Bond) : dict pyvalue :=
  [("isin", PyStr (isin b)); ("ticker", PyStr (ticker b));
   ("coupon", PyFloat (coupon b)); ("maturity", PyStr (maturity b));
   ("yield_value", PyFloat (yield_value b)); ("spread", PyInt (spread b));
   ("duration", PyFloat (duration b)); ("rating", PyStr (rating b));
   ("sector", PyStr (sector b)); ("currency", PyStr (currency b));
   ("price", PyFloat (price b)); ("issue_size", PyInt (issue_size b))]%string.

End PyDict.

(** [csv.DictWriter] with its defaults ([restval=""],
    [extrasaction="raise"]).  The file written is kept as its rows of
    cells; quoting and the printing of numbers are not modelled. *)
Module Csv.

(** [rowdict.keys() - fieldnames]. *)
Definition wrong_fields (fieldnames : list string)
    (rowdict : PyDict.dict pyvalue) : list string :=
  filter (fun k => negb (existsb (String.eqb k) fieldnames))
         (map fst rowdict).

(** [DictWriter._dict_to_list]. *)
Definition dict_to_list (fieldnames : list string)
    (rowdict : PyDict.dict pyvalue) : outcome (list pyvalue) :=
  match wrong_fields fieldnames rowdict with
  | [] =>
      Returned
        (map (fun key => PyDict.get rowdict key (PyStr EmptyString))
             fieldnames)
  | _ :: _ => Raised ValueError
  end.

(** [DictWriter.writerow], on the rows written so far. *)
Definition writerow (fieldnames : list string) (output : list (list pyvalue))
    (rowdict : PyDict.dict pyvalue) : outcome (list (list pyvalue)) :=
  match dict_to_list fieldnames rowdict with
  | Returned cells => Returned (output ++ [cells])
  | Raised e => Raised e
  end.

(** [DictWriter.writeheader]. *)
Definition writeheader (fieldnames : list string)
    (output : list (list pyvalue)) : outcome (list (list pyvalue)) :=
  writerow fieldnames output (combine fieldnames (map PyStr fieldnames)).

(** [for row in rows: writer.writerow(row)]. *)
Fixpoint writerows_loop (fieldnames : list string)
    (output : list (list pyvalue)) (rows : list (PyDict.dict pyvalue))
  : outcome (list (list pyvalue)) :=
  match rows with
  | [] => Returned output
  | row :: rest =>
      match writerow fieldnames output row with
      | Returned output' => writerows_loop fieldnames output' rest
      | Raised e => Raised e
      end
  end.

End Csv.

(* ===================================================================== *)
(** ** Bloomberg API placeholders *)
(* ===================================================================== *)

Module Placeholders.
Import PyRandom MockDataGenerator.
Local Open Scope py_scope.

(** [fetch_bond_data(isin)], the clock reading [now] given; the
    coroutine is taken as the function it runs. *)
Definition fetch_bond_data (now : PyDate.datetime) (isin : string)
  : M (option (PyDict.dict pyvalue)) :=
  bonds <- generate_bonds now 1 ;;
  ret (match bonds with
       | b :: _ => Some (PyDict.asdict b)
       | [] => None
       end).

(** [(a - b).days]: whole days, rounded down. *)
Definition timedelta_days (a b : PyDate.datetime) : Z :=
  ((PyDate.instant a - PyDate.instant b) / PyDate.micros_per_day)%Z.

Section FetchHistorical.

(** [datetime.strptime(s, "%Y-%m-%d")], which the standard library
    provides: a date, or the exception it raises. *)
Variable strptime : string -> outcome PyDate.datetime.

Variable date_range_negative :
  PyDate.datetime -> Z -> outcome (list PyDate.datetime).

(** [fetch_historical_data(isin, start_date, end_date)]: [end_date] is
    parsed first, being the left operand of the subtraction. *)
Definition fetch_historical_data (now : PyDate.datetime)
    (isin start_date end_date : string) : M (list HistoricalPoint) :=
  match strptime end_date with
  | Raised e => raise e
  | Returned end_ =>
      match strptime start_date with
      | Raised e => raise e
      | Returned start_ =>
          generate_historical_data date_range_negative now isin
            (timedelta_days end_ start_)
      end
  end.

End FetchHistorical.

End Placeholders.

(* ===================================================================== *)
(** ** API routes *)
(* ===================================================================== *)

(** The handlers up to [jsonify]: each returns the value it serialises.
    The [bonds] table is a map from its primary key [isin] to the row
    stored under it; the store is taken to accept every statement. *)
Module Routes.
Import PyRandom MockDataGenerator AnalyticsEngine.
Local Open Scope py_scope.

Definition bonds_table : Type := string -> option Bond.

(** [INSERT OR REPLACE INTO bonds (...) VALUES (...)]. *)
Definition insert_or_replace (t : bonds_table) (b : Bond) : bonds_table :=
  fun key => if String.eqb key (isin b) then Some b else t key.

(** [get_bonds()]: the table after the call and the list under
    ['bonds']. *)
Definition get_bonds (now : PyDate.datetime) (t : bonds_table)
  : M (bonds_table * list (PyDict.dict pyvalue)) :=
  bonds <- generate_bonds now 20 ;;
  ret (fold_left insert_or_replace bonds t, map PyDict.asdict bonds).

(** [get_yield_curve()]: the dictionary handed to [jsonify], in the
    order the loop fills it.  [jsonify] writes the keys of a dictionary
    sorted, so the order of the entries here is not the order of the
    keys in the response. *)
Definition get_yield_curve : M (PyDict.dict YieldCurve) :=
  for_each ["USD"; "EUR"]%string
    (fun currency curves =>
       curve <- generate_yield_curve currency ;;
       ret (PyDict.set curves currency curve))
    [].

(** The dictionary built by [get_historical_data]. *)
Record HistoricalResponse : Type := mkHistoricalResponse {
  r_dates : list string;
  r_yields : list Q;
  r_spreads : list Z;
  r_prices : list Q
}.

(** [get_historical_data(isin)]; the frame has rows here, so its
    columns exist. *)
Definition get_historical_data
    (date_range_negative :
       PyDate.datetime -> Z -> outcome (list PyDate.datetime))
    (now : PyDate.datetime) (isin : string) : M HistoricalResponse :=
  df <- generate_historical_data date_range_negative now isin 30 ;;
  ret {| r_dates := map (fun p => PyDate.strftime_ymd (h_date p)) df;
         r_yields := map h_yield_value df;
         r_spreads := map h_spread df;
         r_prices := map h_price df |}.

Definition EXPORT_FIELDS : list string :=
  ["isin"; "ticker"; "sector"; "rating"; "maturity"; "yield_value";
   "spread"; "duration"; "price"]%string.

(** An outcome that involves no draw. *)
Definition lift {A} (o : outcome A) : M A :=
  fun g =>
    match o with
    | Returned a => Returned (a, g)
    | Raised e => Raised e
    end.

(** [export_bonds()]: the rows of the CSV text the response carries. *)
Definition export_bonds (now : PyDate.datetime) : M (list (list pyvalue)) :=
  bonds <- generate_bonds now 20 ;;
  lift (match Csv.writeheader EXPORT_FIELDS [] with
        | Returned output =>
            Csv.writerows_loop EXPORT_FIELDS output
              (map PyDict.asdict bonds)
        | Raised e => Raised e
        end).

End Routes.

(* ===================================================================== *)
(** ** Vocabulary of the properties *)
(* ===================================================================== *)

Section CallVocabulary.
Import PyRandom.
Local Open Scope py_scope.

(** The call returns (it does not raise), and its value and the state
    it leaves satisfy [post]. *)
Definition returns {A} (m : M A) (g : rng) (post : A -> rng -> Prop) : Prop :=
  exists a g', m g = Returned (a, g') /\ post a g'.

End CallVocabulary.

Section BondVocabulary.
Import PyRandom MockDataGenerator.
Local Open Scope py_scope.

(** The premium as the specification words it: 1.5 for a rating that
    contains BBB, 0.5 for one that contains A but not BBB. *)
Definition spec_premium (r : string) : Q :=
  ((if PyNum.contains "BBB" r then 1.5 else 0)
   + (if (PyNum.contains "A" r && negb (PyNum.contains "BBB" r))%bool
      then 0.5 else 0))%Q.

(** What one pass of the loop body fixes about the record it builds:
    the draws behind it and how each field follows from them. *)
Definition bond_generated (base_date : PyDate.datetime) (b : Bond) : Prop :=
  exists (maturity_years : Z) (noise duration_noise : Q),
    1 <= maturity_years <= 30
    /\ maturity b
       = PyDate.strftime_ymd (PyDate.add_days base_date (365 * maturity_years))
    /\ (-0.5 <= noise /\ noise <= 0.5)%Q
    /\ yield_value b
       = PyNum.round (2.0 + inject_Z maturity_years * 0.1
                      + rating_premium (rating b) + noise) 2
    /\ 10 <= spread b <= 300
    /\ (-1 <= duration_noise /\ duration_noise <= 1)%Q
    /\ duration b
       = PyNum.round (inject_Z maturity_years * 0.85 + duration_noise) 1
    /\ In (rating b) RATINGS
    /\ In (sector b) SECTORS
    /\ In (currency b) CURRENCIES.

End BondVocabulary.

Section RangeVocabulary.
Import PyRandom MockDataGenerator.
Local Open Scope Q_scope.

(** The field ranges of a record as the specification states them. *)
Definition in_stated_ranges (b : Bond) : Prop :=
  0 <= yield_value b
  /\ (10 <= spread b <= 300)%Z
  /\ (0.85 * 1 - 1 <= duration b /\ duration b <= 0.85 * 30 + 1)
  /\ In (rating b) RATINGS
  /\ In (sector b) SECTORS
  /\ In (currency b) CURRENCIES.

(** The same with the duration interval widened to the one-decimal
    values the rounding can reach. *)
Definition in_rounded_ranges (b : Bond) : Prop :=
  0 <= yield_value b
  /\ (10 <= spread b <= 300)%Z
  /\ (-0.2 <= duration b /\ duration b <= 26.5)
  /\ In (rating b) RATINGS
  /\ In (sector b) SECTORS
  /\ In (currency b) CURRENCIES.

(** A clock reading and two tapes used in the examples. *)
Definition sample_now : PyDate.datetime := PyDate.mkDatetime 739923 0.

Definition zero_tape : rng := mkRng (fun _ => 0) 0.

Definition short_duration_tape : rng :=
  mkRng (fun n => if Nat.eqb n 7 then 3 # 100 else 0) 0.

End RangeVocabulary.

Section HistoryVocabulary.
Import PyRandom MockDataGenerator.
Local Open Scope Z_scope.

(** Consecutive entries are one calendar day apart. *)
Definition contiguous_days (ds : list PyDate.datetime) : Prop :=
  forall i d d',
    nth_error ds i = Some d -> nth_error ds (S i) = Some d' ->
    d' = PyDate.add_days d 1.

(** Later entries are later instants. *)
Definition strictly_increasing (ds : list PyDate.datetime) : Prop :=
  forall i j d d',
    (i < j)%nat -> nth_error ds i = Some d -> nth_error ds j = Some d' ->
    PyDate.instant d < PyDate.instant d'.

(** The price relation as the specification states it, on the emitted
    values. *)
Definition price_exact (p : HistoricalPoint) : Prop :=
  (h_price p == 100 - (h_yield_value p - 3) * 5)%Q.

(** The price relation the code establishes: both emitted values are
    roundings of the same unrounded walk value. *)
Definition price_rounded (p : HistoricalPoint) : Prop :=
  exists w : Q,
    h_yield_value p = PyNum.round w 3
    /\ h_price p = PyNum.round (100 - (w - 3) * 5) 2.

(** The emitted price is within 0.0075 of the stated formula on the
    emitted yield. *)
Definition price_close (p : HistoricalPoint) : Prop :=
  (Qabs (h_price p - (100 - (h_yield_value p - 3) * 5)) <= 0.0075)%Q.

(** The series claimed for [days] days ending at [now]. *)
Definition series_of (price_rule : HistoricalPoint -> Prop)
    (now : PyDate.datetime) (days : Z) (pts : list HistoricalPoint) : Prop :=
  Z.of_nat (List.length pts) = days
  /\ contiguous_days (map h_date pts)
  /\ strictly_increasing (map h_date pts)
  /\ nth_error (map h_date pts) (Z.to_nat (days - 1)) = Some now
  /\ Forall price_rule pts.

Definition sample_isin : string := "XS0000000000".

Definition reject_negative :
  PyDate.datetime -> Z -> outcome (list PyDate.datetime) :=
  fun _ _ => Raised ValueError.

Definition odd_thousandth_tape : rng :=
  mkRng (fun n => if Nat.eqb n 0 then 512 # 1000 else 0%Q) 0.

End HistoryVocabulary.

Section AnalyticsVocabulary.
Import PyRandom AnalyticsEngine.
Local Open Scope Q_scope.

(** The rates of [table] with the draws read from position [start] of
    the tape added, one draw per rate, in order. *)
Definition perturbed (t : nat -> Q) (start : nat) (table : list Q) : list Q :=
  map (fun '(i, rate) => rate + uniform_of (-0.1) 0.1 (t i))
      (combine (seq start (List.length table)) table).

(** The curve built on [table] from the draws the generator holds. *)
Definition curve_on (table : list Q) (g : rng) : YieldCurve :=
  {| tenors := [0.25; 0.5; 1; 2; 3; 5; 7; 10; 15; 20; 30];
     yields := map (fun y => PyNum.round y 3)
                   (perturbed (tape g) (pos g) table) |}.

(** A yield is its base rate plus a perturbation in [[-0.1, 0.1]],
    rounded to 3 decimals. *)
Definition perturbed_rate (rate y : Q) : Prop :=
  exists p : Q, (-0.1 <= p /\ p <= 0.1) /\ y == PyNum.round (rate + p) 3.

Definition half_tape : rng := mkRng (fun _ => 1 # 2) 4.

Definition sample_bond : Bond :=
  {| isin := "XS0000000007"; ticker := "GOV 2.5% 2031"; coupon := 5 # 2;
     maturity := "2031-11-02"; yield_value := 3.1; spread := 42%Z;
     duration := 4.3; rating := "AA+"; sector := "Government";
     currency := "USD"; price := 99.5; issue_size := 1000000000%Z |}.

Definition other_bond : Bond :=
  {| isin := "XS0000000019"; ticker := "MUN 2.5% 2050"; coupon := 10 # 4;
     maturity := "2050-10-28"; yield_value := 5.9; spread := 280%Z;
     duration := 20.1; rating := "BBB-"; sector := "Municipal";
     currency := "JPY"; price := 85.5; issue_size := 500000000%Z |}.

End AnalyticsVocabulary.

Section RecordVocabulary.
Import PyRandom MockDataGenerator.
Local Open Scope Q_scope.

(** The generator after [n] more draws were read. *)
Definition advance (g : rng) (n : nat) : rng := mkRng (tape g) (n + pos g).

(** The record the loop body builds from the values it drew. *)
Definition bond_of_draws (base_date : PyDate.datetime) (i : Z)
    (maturity_years : Z) (sec rat : string) (noise shown cpn : Q) (spr : Z)
    (duration_noise : Q) (cur : string) (price_noise : Q) (size : Z) : Bond :=
  let maturity_date := PyDate.add_days base_date (365 * maturity_years) in
  let yld :=
    PyNum.round
      (2.0 + inject_Z maturity_years * 0.1 + rating_premium rat + noise) 2 in
  {| isin := "XS" ++ PyNum.zfill (PyNum.str i) 10;
     ticker :=
       PyNum.upper (substring 0 3 sec) ++ " "
         ++ PyNum.repr_2dp (PyNum.round shown 2) ++ "% "
         ++ PyNum.str (PyDate.year maturity_date);
     coupon := PyNum.round cpn 2;
     maturity := PyDate.strftime_ymd maturity_date;
     yield_value := yld;
     spread := spr;
     duration :=
       PyNum.round (inject_Z maturity_years * 0.85 + duration_noise) 1;
     rating := rat;
     sector := sec;
     currency := cur;
     price := 100 - (yld - 3) * 5 + price_noise;
     issue_size := size |}.

(** Record [b] is the one built at index [i] from draws in their
    ranges. *)
Definition bond_built (base_date : PyDate.datetime) (i : Z) (b : Bond)
  : Prop :=
  exists maturity_years sec rat noise shown cpn spr duration_noise cur
         price_noise size,
    (1 <= maturity_years <= 30)%Z
    /\ In sec SECTORS /\ In rat RATINGS
    /\ (-0.5 <= noise /\ noise <= 0.5)
    /\ (1 <= shown /\ shown <= 6)
    /\ (1 <= cpn /\ cpn <= 6)
    /\ (10 <= spr <= 300)%Z
    /\ (-1 <= duration_noise /\ duration_noise <= 1)
    /\ In cur CURRENCIES
    /\ (-2 <= price_noise /\ price_noise <= 2)
    /\ In size ISSUE_SIZES
    /\ b = bond_of_draws base_date i maturity_years sec rat noise shown cpn
             spr duration_noise cur price_noise size.

(** The number a string of decimal digits denotes. *)
Definition digits_value (s : string) : option Z :=
  option_map Z.of_uint (NilEmpty.uint_of_string s).

(** The fields of a record that the batch properties of the claims leave
    out: yield, coupon and price intervals and the issue sizes. *)
Definition in_derived_ranges (b : Bond) : Prop :=
  (2.1 <= yield_value b /\ yield_value b <= 7)
  /\ (1 <= coupon b /\ coupon b <= 6)
  /\ (78 <= price b /\ price b <= 106.5)
  /\ Qabs (price b - (100 - (yield_value b - 3) * 5)) <= 2
  /\ In (issue_size b) [500000000; 1000000000; 2000000000; 5000000000]%Z.

End RecordVocabulary.

Section DriftVocabulary.
Import PyRandom MockDataGenerator.
Local Open Scope Q_scope.

(** The point at position [k] of a series lies within [k + 1] steps of
    the start of the walk (yield 3.5, spread 50, price 97.5): a step
    moves the yield by at most 0.05, the spread by at most 2 and the
    price by at most 0.25. *)
Definition within_drift (k : nat) (p : HistoricalPoint) : Prop :=
  let n := inject_Z (Z.of_nat (S k)) in
  (Z.abs (h_spread p - 50) <= 2 * Z.of_nat (S k))%Z
  /\ (3.5 - 0.05 * n <= h_yield_value p /\ h_yield_value p <= 3.5 + 0.05 * n)
  /\ (97.5 - 0.25 * n <= h_price p /\ h_price p <= 97.5 + 0.25 * n).

(** What the loop of [generate_historical_data] keeps true after
    [n] dates. *)
Definition walk_invariant (n : nat) (w : walk) : Prop :=
  List.length (data w) = n
  /\ (3.5 - 0.05 * inject_Z (Z.of_nat n) <= base_yield w
      /\ base_yield w <= 3.5 + 0.05 * inject_Z (Z.of_nat n))
  /\ (Z.abs (base_spread w - 50) <= 2 * Z.of_nat n)%Z
  /\ (forall k p, nth_error (data w) k = Some p -> within_drift k p)
  /\ (forall p, nth_error (data w) 0 = Some p ->
                (Z.abs (h_spread p - 50) <= 2)%Z)
  /\ (forall k p q,
        nth_error (data w) k = Some p -> nth_error (data w) (S k) = Some q ->
        (Z.abs (h_spread q - h_spread p) <= 2)%Z)
  /\ (forall m p,
        n = S m -> nth_error (data w) m = Some p ->
        h_spread p = base_spread w).

End DriftVocabulary.

Section RouteVocabulary.
Import PyRandom MockDataGenerator.
Local Open Scope Z_scope.

(** A parser that knows two dates, for the examples. *)
Definition sample_strptime (s : string) : outcome PyDate.datetime :=
  if String.eqb s "2026-10-04" then Returned (PyDate.mkDatetime 739893 0)
  else if String.eqb s "2026-11-03" then Returned (PyDate.mkDatetime 739923 0)
  else Raised ValueError.

Definition empty_table : Routes.bonds_table := fun _ => None.

End RouteVocabulary.

Section CurveVocabulary.
Local Open Scope Q_scope.

(** A yield stays within 0.1 of its base rate. *)
Definition within_band (rate y : Q) : Prop :=
  rate - 0.1 <= y /\ y <= rate + 0.1.

(** A rate with one decimal. *)
Definition one_decimal (rate : Q) : Prop :=
  exists z : Z, rate == inject_Z z / PyNum.pow10 1.

End CurveVocabulary.

Section TickerVocabulary.
Import MockDataGenerator.
Local Open Scope string_scope.

(** The ticker of a record names its sector by three capital letters
    and ends with the year its maturity date starts with. *)
Definition ticker_well_formed (b : Bond) : Prop :=
  exists (shown tail : string) (y : Z),
    In (PyNum.upper (substring 0 3 (sector b)))
       ["GOV"; "COR"; "MUN"; "AGE"; "SOV"]
    /\ ticker b
       = PyNum.upper (substring 0 3 (sector b)) ++ " " ++ shown ++ "% "
           ++ PyNum.str y
    /\ maturity b = PyNum.zfill (PyNum.str y) 4 ++ "-" ++ tail.

(** Two records that differ at most in the fields derived from the
    clock, [ticker] and [maturity]. *)
Definition same_but_dates (b1 b2 : Bond) : Prop :=
  isin b1 = isin b2 /\ coupon b1 = coupon b2
  /\ yield_value b1 = yield_value b2 /\ spread b1 = spread b2
  /\ duration b1 = duration b2 /\ rating b1 = rating b2
  /\ sector b1 = sector b2 /\ currency b1 = currency b2
  /\ price b1 = price b2 /\ issue_size b1 = issue_size b2.

End TickerVocabulary.

Section RunVocabulary.
Import PyRandom.

(** Two runs end alike: both raise the same exception, or both return,
    in the same generator state, values related by [R]. *)
Definition alike {A} (R : A -> A -> Prop) (o1 o2 : outcome (A * rng)) : Prop :=
  match o1, o2 with
  | Returned (a1, g1), Returned (a2, g2) => g1 = g2 /\ R a1 a2
  | Raised e1, Raised e2 => e1 = e2
  | _, _ => False
  end.

End RunVocabulary.

Section WalkVocabulary.
Import PyRandom MockDataGenerator.
Local Open Scope py_scope.

(** The values the loop of [generate_historical_data] draws over [n]
    dates, in the order it draws them: for each date the yield change
    and then the spread change. *)
Fixpoint walk_draws (n : nat) : M (list (Q * Z)) :=
  match n with
  | O => ret []
  | S n' =>
      yield_change <- uniform (-0.05) 0.05 ;;
      spread_change <- randint (-2) 2 ;;
      rest <- walk_draws n' ;;
      ret ((yield_change, spread_change) :: rest)
  end.

(** The unrounded yields of the walk: from [y], each change added to the
    value before it. *)
Fixpoint walk_values (y : Q) (changes : list Q) : list Q :=
  match changes with
  | [] => []
  | change :: rest => (y + change)%Q :: walk_values (y + change)%Q rest
  end.

End WalkVocabulary.

(* ===================================================================== *)
(** ** Rounding *)
(* ===================================================================== *)

Section Rounding.
Local Open Scope Q_scope.

Lemma floor_bounds (q : Q) :
  inject_Z (Qfloor q) <= q /\ q < inject_Z (Qfloor q) + 1.
Proof.
  split; [apply Qfloor_le|].
  pose proof (Qlt_floor q) as H.
  rewrite inject_Z_plus in H. exact H.
Qed.

(** The rounded value is one of the two neighbouring integers. *)
Lemma round_half_even_cases (q : Q) :
  (PyNum.round_half_even q = Qfloor q /\ q - inject_Z (Qfloor q) <= 1 # 2)
  \/ (PyNum.round_half_even q = (Qfloor q + 1)%Z
      /\ 1 # 2 <= q - inject_Z (Qfloor q)).
Proof.
  unfold PyNum.round_half_even.
  destruct (Qcompare (q - inject_Z (Qfloor q)) (1 # 2)) eqn:E.
  - apply Qeq_alt in E.
    destruct (Z.even (Qfloor q)); [left | right];
      (split; [reflexivity | rewrite E; apply Qle_refl]).
  - apply Qlt_alt in E. left. split; [reflexivity | apply Qlt_le_weak, E].
  - apply Qgt_alt in E. right. split; [reflexivity | apply Qlt_le_weak, E].
Qed.

(** Rounding moves a number by at most one half. *)
Lemma round_half_even_near (q : Q) :
  q - (1 # 2) <= inject_Z (PyNum.round_half_even q) <= q + (1 # 2).
Proof.
  destruct (floor_bounds q) as [Hlo Hhi].
  destruct (round_half_even_cases q) as [[-> H] | [-> H]].
  - split; lra.
  - rewrite inject_Z_plus. change (inject_Z 1) with 1. split; lra.
Qed.

(** Rounding never crosses an integer. *)
Lemma round_half_even_lower (z : Z) (q : Q) :
  inject_Z z <= q -> (z <= PyNum.round_half_even q)%Z.
Proof.
  intros H.
  assert (z <= Qfloor q)%Z as Hz.
  { rewrite <- (Qfloor_Z z). apply Qfloor_resp_le, H. }
  destruct (round_half_even_cases q) as [[-> _] | [-> _]]; lia.
Qed.

Lemma round_half_even_upper (z : Z) (q : Q) :
  q <= inject_Z z -> (PyNum.round_half_even q <= z)%Z.
Proof.
  intros H.
  destruct (floor_bounds q) as [Hlo Hhi].
  destruct (round_half_even_cases q) as [[-> _] | [-> Hd]].
  - rewrite Zle_Qle. lra.
  - assert (inject_Z (Qfloor q) < inject_Z z) as Hlt by lra.
    rewrite <- Zlt_Qlt in Hlt. lia.
Qed.

Lemma round_half_even_comp :
  Proper (Qeq ==> eq) PyNum.round_half_even.
Proof.
  intros x y E. unfold PyNum.round_half_even.
  rewrite (Qfloor_comp _ _ E).
  assert (x - inject_Z (Qfloor y) == y - inject_Z (Qfloor y)) as E'
    by (rewrite E; reflexivity).
  rewrite (Qcompare_comp _ _ E' (1 # 2) (1 # 2) (Qeq_refl _)).
  reflexivity.
Qed.

Lemma round_comp (n : nat) :
  Proper (Qeq ==> eq) (fun x => PyNum.round x n).
Proof.
  intros x y E. unfold PyNum.round.
  assert (x * PyNum.pow10 n == y * PyNum.pow10 n) as E'
    by (rewrite E; reflexivity).
  rewrite (round_half_even_comp _ _ E'). reflexivity.
Qed.

Lemma pow10_pos (n : nat) : 0 < PyNum.pow10 n.
Proof.
  unfold PyNum.pow10. change 0 with (inject_Z 0). rewrite <- Zlt_Qlt.
  apply Z.pow_pos_nonneg; lia.
Qed.

Lemma div_le_unshift (a x p : Q) : 0 < p -> a / p <= x -> a <= x * p.
Proof.
  intros Hp H.
  setoid_replace a with (a / p * p)
    by (field; intros E; rewrite E in Hp; discriminate).
  apply Qmult_le_compat_r; [exact H | apply Qlt_le_weak, Hp].
Qed.

Lemma le_div_unshift (a x p : Q) : 0 < p -> x <= a / p -> x * p <= a.
Proof.
  intros Hp H.
  setoid_replace a with (a / p * p)
    by (field; intros E; rewrite E in Hp; discriminate).
  apply Qmult_le_compat_r; [exact H | apply Qlt_le_weak, Hp].
Qed.

(** [round(x, n)] stays above (below) any [n]-decimal number that [x]
    is above (below). *)
Lemma round_lower (z : Z) (x : Q) (n : nat) :
  inject_Z z / PyNum.pow10 n <= x ->
  inject_Z z / PyNum.pow10 n <= PyNum.round x n.
Proof.
  intros H. pose proof (pow10_pos n) as Hp. unfold PyNum.round.
  apply Qle_shift_div_l; [exact Hp|].
  setoid_replace (inject_Z z / PyNum.pow10 n * PyNum.pow10 n)
    with (inject_Z z)
    by (field; intros E; rewrite E in Hp; discriminate).
  rewrite <- Zle_Qle. apply round_half_even_lower.
  apply div_le_unshift; assumption.
Qed.

Lemma round_upper (z : Z) (x : Q) (n : nat) :
  x <= inject_Z z / PyNum.pow10 n ->
  PyNum.round x n <= inject_Z z / PyNum.pow10 n.
Proof.
  intros H. pose proof (pow10_pos n) as Hp. unfold PyNum.round.
  apply Qle_shift_div_r; [exact Hp|].
  setoid_replace (inject_Z z / PyNum.pow10 n * PyNum.pow10 n)
    with (inject_Z z)
    by (field; intros E; rewrite E in Hp; discriminate).
  rewrite <- Zle_Qle. apply round_half_even_upper.
  apply le_div_unshift; assumption.
Qed.

(** [round(x, n)] is within half a unit of the last place of [x]. *)
Lemma round_near (x : Q) (n : nat) :
  x - (1 # 2) / PyNum.pow10 n <= PyNum.round x n <= x + (1 # 2) / PyNum.pow10 n.
Proof.
  pose proof (pow10_pos n) as Hp. unfold PyNum.round.
  destruct (round_half_even_near (x * PyNum.pow10 n)) as [Hlo Hhi].
  set (r := inject_Z (PyNum.round_half_even (x * PyNum.pow10 n))) in *.
  assert (~ PyNum.pow10 n == 0) as Hne
    by (intros E; rewrite E in Hp; discriminate).
  split.
  - apply Qle_shift_div_l; [exact Hp|].
    setoid_replace ((x - (1 # 2) / PyNum.pow10 n) * PyNum.pow10 n)
      with (x * PyNum.pow10 n - (1 # 2)) by (field; exact Hne).
    exact Hlo.
  - apply Qle_shift_div_r; [exact Hp|].
    setoid_replace ((x + (1 # 2) / PyNum.pow10 n) * PyNum.pow10 n)
      with (x * PyNum.pow10 n + (1 # 2)) by (field; exact Hne).
    exact Hhi.
Qed.

End Rounding.

(* ===================================================================== *)
(** ** Reasoning about calls that draw from [random] *)
(* ===================================================================== *)

Section Calls.
Import PyRandom.
Local Open Scope py_scope.

Lemma returns_ret {A} (a : A) g (post : A -> rng -> Prop) :
  post a g -> returns (ret a) g post.
Proof. intros H. exists a, g. split; [reflexivity | exact H]. Qed.

Lemma returns_bind {A B} (m : M A) (k : A -> M B) g
    (post : B -> rng -> Prop) :
  returns m g (fun a g' => returns (k a) g' post) ->
  returns (bind m k) g post.
Proof.
  intros (a & g' & Em & b & g'' & Ek & H).
  exists b, g''. split; [|exact H].
  unfold bind. rewrite Em. exact Ek.
Qed.

Lemma returns_weaken {A} (m : M A) g (post post' : A -> rng -> Prop) :
  returns m g post -> (forall a g', post a g' -> post' a g') ->
  returns m g post'.
Proof.
  intros (a & g' & E & H) Himp. exists a, g'. split; [exact E | auto].
Qed.

Lemma random_returns g :
  valid g ->
  returns random g (fun r g' => valid g' /\ (0 <= r /\ r < 1)%Q).
Proof.
  intros V. eexists _, _. split; [reflexivity|].
  split; [intros n; apply (V n) | apply (V (pos g))].
Qed.

Lemma uniform_returns (a b : Q) g :
  (a <= b)%Q -> valid g ->
  returns (uniform a b) g (fun u g' => valid g' /\ (a <= u /\ u <= b)%Q).
Proof.
  intros Hab V. unfold uniform. apply returns_bind.
  eapply returns_weaken; [apply random_returns, V|].
  intros r g' (V' & Hr0 & Hr1). apply returns_ret. split; [exact V'|].
  unfold uniform_of.
  assert (0 <= (b - a) * r)%Q as H0
    by (apply Qmult_le_0_compat; [lra | exact Hr0]).
  assert ((b - a) * r <= (b - a) * 1)%Q as H1
    by (rewrite !(Qmult_comm (b - a)); apply Qmult_le_compat_r; lra).
  split; lra.
Qed.

Lemma randbelow_returns (n : Z) g :
  0 < n -> valid g ->
  returns (randbelow n) g (fun k g' => valid g' /\ 0 <= k < n).
Proof.
  intros Hn V. unfold randbelow. apply returns_bind.
  eapply returns_weaken; [apply random_returns, V|].
  intros r g' (V' & Hr0 & Hr1). apply returns_ret. split; [exact V'|].
  assert (0 < inject_Z n)%Q as Hn'
    by (change 0%Q with (inject_Z 0); rewrite <- Zlt_Qlt; exact Hn).
  split.
  - change 0 with (Qfloor (inject_Z 0)) at 1. rewrite Qfloor_Z.
    rewrite <- (Qfloor_Z 0). apply Qfloor_resp_le.
    apply Qmult_le_0_compat; [exact Hr0 | apply Qlt_le_weak, Hn'].
  - apply Z.lt_nge. intros Hge.
    assert (inject_Z n <= r * inject_Z n)%Q as Hc.
    { eapply Qle_trans; [|apply Qfloor_le]. rewrite <- Zle_Qle. exact Hge. }
    assert (r * inject_Z n < 1 * inject_Z n)%Q as Hlt
      by (apply Qmult_lt_compat_r; assumption).
    lra.
Qed.

Lemma randint_returns (a b : Z) g :
  a <= b -> valid g ->
  returns (randint a b) g (fun k g' => valid g' /\ a <= k <= b).
Proof.
  intros Hab V. unfold randint.
  destruct (Z.ltb_spec b a) as [Hlt | _]; [lia|].
  apply returns_bind.
  eapply returns_weaken; [apply randbelow_returns; [lia | exact V]|].
  intros k g' (V' & Hk). apply returns_ret. split; [exact V' | lia].
Qed.

Lemma choice_returns {A} (xs : list A) g :
  xs <> [] -> valid g ->
  returns (choice xs) g (fun x g' => valid g' /\ In x xs).
Proof.
  intros Hne V. unfold choice. destruct xs as [|x0 xs']; [congruence|].
  set (xs := x0 :: xs') in *.
  apply returns_bind.
  eapply returns_weaken;
    [apply randbelow_returns; [unfold xs; simpl List.length; lia | exact V]|].
  intros k g' (V' & Hk).
  destruct (nth_error xs (Z.to_nat k)) as [x|] eqn:E.
  - apply returns_ret. split; [exact V' | eapply nth_error_In, E].
  - apply nth_error_None in E. lia.
Qed.

(** A loop whose body keeps an invariant, stated on the items already
    visited, the loop state and the generator, returns and ends in the
    invariant for all the items. *)
Lemma for_each_returns {A S} (body : A -> S -> M S)
    (inv : list A -> S -> rng -> Prop) (xs : list A) :
  (forall visited x s g,
      inv visited s g ->
      returns (body x s) g (inv (visited ++ [x]))) ->
  forall visited s g,
    inv visited s g ->
    returns (for_each xs body s) g (inv (visited ++ xs)).
Proof.
  intros Hbody. induction xs as [|x rest IH]; intros visited s g Hinv.
  - rewrite app_nil_r. apply returns_ret, Hinv.
  - simpl for_each. apply returns_bind.
    eapply returns_weaken; [apply Hbody, Hinv|].
    intros s' g' Hinv'. specialize (IH _ _ _ Hinv').
    rewrite <- app_assoc in IH. exact IH.
Qed.

Lemma for_each_cons_run {A S} (x : A) (xs : list A) (body : A -> S -> M S)
    s g :
  for_each (x :: xs) body s g
  = match body x s g with
    | Returned (s', g') => for_each xs body s' g'
    | Raised e => Raised e
    end.
Proof. reflexivity. Qed.

Lemma py_range_length (n : Z) : 0 <= n -> Z.of_nat (List.length (py_range n)) = n.
Proof.
  intros Hn. unfold py_range. rewrite length_map, length_seq. lia.
Qed.

Lemma py_range_nonpositive (n : Z) : n <= 0 -> py_range n = [].
Proof.
  intros Hn. unfold py_range.
  replace (Z.to_nat n) with 0%nat by lia. reflexivity.
Qed.

End Calls.

(* ===================================================================== *)
(** ** The bond batch *)
(* ===================================================================== *)

Section Bonds.
Import PyRandom MockDataGenerator.
Local Open Scope py_scope.

Lemma generate_bond_returns base_date i g :
  valid g ->
  returns (generate_bond base_date i) g
    (fun b g' => valid g' /\ bond_generated base_date b).
Proof.
  intros V. unfold generate_bond.
  apply returns_bind. eapply returns_weaken;
    [apply randint_returns; [lia | exact V]|].
  intros maturity_years g1 (V1 & Hm). cbv beta.
  apply returns_bind. eapply returns_weaken;
    [apply choice_returns; [discriminate | exact V1]|].
  intros sec g2 (V2 & Hsec). cbv beta.
  apply returns_bind. eapply returns_weaken;
    [apply choice_returns; [discriminate | exact V2]|].
  intros rat g3 (V3 & Hrat). cbv beta.
  apply returns_bind. eapply returns_weaken;
    [apply uniform_returns; [lra | exact V3]|].
  intros noise g4 (V4 & Hnoise). cbv beta.
  apply returns_bind. eapply returns_weaken;
    [apply uniform_returns; [lra | exact V4]|].
  intros ticker_coupon g5 (V5 & _). cbv beta.
  apply returns_bind. eapply returns_weaken;
    [apply uniform_returns; [lra | exact V5]|].
  intros cpn g6 (V6 & _). cbv beta.
  apply returns_bind. eapply returns_weaken;
    [apply randint_returns; [lia | exact V6]|].
  intros spr g7 (V7 & Hspread). cbv beta.
  apply returns_bind. eapply returns_weaken;
    [apply uniform_returns; [lra | exact V7]|].
  intros duration_noise g8 (V8 & Hdn). cbv beta.
  apply returns_bind. eapply returns_weaken;
    [apply choice_returns; [discriminate | exact V8]|].
  intros cur g9 (V9 & Hcur). cbv beta.
  apply returns_bind. eapply returns_weaken;
    [apply uniform_returns; [lra | exact V9]|].
  intros price_noise g10 (V10 & _). cbv beta.
  apply returns_bind. eapply returns_weaken;
    [apply choice_returns; [discriminate | exact V10]|].
  intros size g11 (V11 & _). cbv beta.
  apply returns_ret. split; [exact V11|].
  exists maturity_years, noise, duration_noise.
  cbn [maturity yield_value spread duration rating sector currency].
  repeat split; try tauto; try lia.
Qed.

Lemma generate_bonds_returns base_date count g :
  valid g ->
  returns (generate_bonds base_date count) g
    (fun bonds g' =>
       valid g'
       /\ List.length bonds = List.length (py_range count)
       /\ Forall (bond_generated base_date) bonds).
Proof.
  intros V. unfold generate_bonds.
  refine (for_each_returns _
            (fun visited bonds g' =>
               valid g'
               /\ List.length bonds = List.length visited
               /\ Forall (bond_generated base_date) bonds)
            (py_range count) _ [] [] g _); [|auto].
  intros visited i bonds g0 (V0 & Hlen & Hall).
  apply returns_bind. eapply returns_weaken;
    [apply generate_bond_returns, V0|].
  intros b g1 (V1 & Hb). apply returns_ret.
  split; [exact V1|]. split.
  - rewrite !length_app, Hlen. reflexivity.
  - apply Forall_app. split; [exact Hall | constructor; [exact Hb | constructor]].
Qed.

End Bonds.

Section BondClaims.
Import PyRandom MockDataGenerator.
Local Open Scope Q_scope.

Lemma zero_tape_valid : valid zero_tape.
Proof. intros n. split; [apply Qle_refl | reflexivity]. Qed.

Lemma short_duration_tape_valid : valid short_duration_tape.
Proof.
  intros n. cbn. destruct (Nat.eqb n 7); split;
    solve [reflexivity | discriminate].
Qed.

Lemma rating_premium_nonneg r : 0 <= rating_premium r.
Proof.
  unfold rating_premium.
  destruct (PyNum.contains "BBB" r); [discriminate|].
  destruct (PyNum.contains "A" r); discriminate.
Qed.

Lemma rating_premium_as_stated r : rating_premium r == spec_premium r.
Proof.
  unfold rating_premium, spec_premium.
  destruct (PyNum.contains "BBB" r), (PyNum.contains "A" r); reflexivity.
Qed.

Lemma round_ge (a x : Q) (z : Z) (n : nat) :
  a == inject_Z z / PyNum.pow10 n -> a <= x -> a <= PyNum.round x n.
Proof. intros E H. rewrite E in *. apply round_lower, H. Qed.

Lemma round_le (a x : Q) (z : Z) (n : nat) :
  a == inject_Z z / PyNum.pow10 n -> x <= a -> PyNum.round x n <= a.
Proof. intros E H. rewrite E in *. apply round_upper, H. Qed.

Lemma maturity_years_as_float (m : Z) :
  (1 <= m <= 30)%Z -> 1 <= inject_Z m /\ inject_Z m <= 30.
Proof.
  intros [H1 H2]. split.
  - change 1 with (inject_Z 1). rewrite <- Zle_Qle. exact H1.
  - change 30 with (inject_Z 30). rewrite <- Zle_Qle. exact H2.
Qed.

Lemma bond_generated_ranges base_date b :
  bond_generated base_date b -> in_rounded_ranges b.
Proof.
  intros (m & noise & dn & Hm & _ & Hnoise & Hy & Hs & Hdn & Hd & Hr & Hsec & Hc).
  apply maturity_years_as_float in Hm.
  pose proof (rating_premium_nonneg (rating b)) as Hp.
  unfold in_rounded_ranges. rewrite Hy, Hd.
  repeat split; try assumption; try lia.
  - apply (round_ge 0 _ 0 2); [reflexivity | lra].
  - apply (round_ge (-0.2) _ (-2) 1); [reflexivity | lra].
  - apply (round_le 26.5 _ 265 1); [reflexivity | lra].
Qed.

End BondClaims.

Section BondTheorems.
Import PyRandom MockDataGenerator.
Local Open Scope Q_scope.

(** C1 (as amended).  For every non-negative [count] and every
    generator whose raw draws lie in [[0, 1)], [generate_bonds] returns
    exactly [count] records, each with [yield_value >= 0], [spread] in
    [[10, 300]], [duration] in [[-0.2, 26.5]] (the stated interval
    [[0.85*1 - 1, 0.85*30 + 1]] rounded to one decimal) and [rating],
    [sector] and [currency] taken from [RATINGS], [SECTORS] and
    [CURRENCIES]. *)
Theorem generate_bonds_count_and_ranges base_date count g :
  (0 <= count)%Z -> valid g ->
  exists bonds g',
    generate_bonds base_date count g = Returned (bonds, g')
    /\ Z.of_nat (List.length bonds) = count
    /\ Forall in_rounded_ranges bonds.
Proof.
  intros Hc V.
  destruct (generate_bonds_returns base_date count g V)
    as (bonds & g' & E & _ & Hlen & Hall).
  exists bonds, g'. split; [exact E|]. split.
  - rewrite Hlen. apply py_range_length, Hc.
  - eapply Forall_impl; [|exact Hall].
    intros b. apply bond_generated_ranges.
Qed.

Lemma generate_bonds_count_and_ranges_witness :
  exists bonds g',
    generate_bonds sample_now 3 zero_tape = Returned (bonds, g')
    /\ Z.of_nat (List.length bonds) = 3%Z
    /\ Forall in_rounded_ranges bonds.
Proof.
  apply (generate_bonds_count_and_ranges sample_now 3 zero_tape).
  - lia.
  - exact zero_tape_valid.
Defined.

(** C1 as stated fails: with every raw draw 0 the one record of
    [generate_bonds(1)] has maturity offset 1 and duration noise -1, so
    its duration is [round(-0.15, 1) = -0.2], below [0.85*1 - 1]. *)
Lemma generate_bonds_stated_ranges_fail :
  ~ ((0 <= 1)%Z -> valid zero_tape ->
     exists bonds g',
       generate_bonds sample_now 1 zero_tape = Returned (bonds, g')
       /\ Z.of_nat (List.length bonds) = 1%Z
       /\ Forall in_stated_ranges bonds).
Proof.
  intros H.
  destruct (H ltac:(lia) zero_tape_valid) as (bonds & g' & E & _ & Hall).
  vm_compute in E. injection E as <- _.
  inversion Hall as [|b l Hb _]; subst.
  destruct Hb as (_ & _ & (Hlo & _) & _).
  vm_compute in Hlo. apply Hlo. reflexivity.
Qed.

(** C3.  Every record of a batch has
    [yield_value = round(2.0 + 0.1 * maturity_years + premium + noise, 2)]
    for the maturity offset it was built from (in [1..30], the one its
    [maturity] date is [365 * maturity_years] days after the clock
    reading), the premium of its rating as the specification words it,
    and some [noise] in [[-0.5, 0.5]]. *)
Theorem generate_bonds_yield_formula base_date count g :
  valid g ->
  exists bonds g',
    generate_bonds base_date count g = Returned (bonds, g')
    /\ Forall
         (fun b =>
            exists (maturity_years : Z) (noise : Q),
              (1 <= maturity_years <= 30)%Z
              /\ maturity b
                 = PyDate.strftime_ymd
                     (PyDate.add_days base_date (365 * maturity_years))
              /\ (-0.5 <= noise /\ noise <= 0.5)
              /\ yield_value b
                 == PyNum.round
                      (2.0 + 0.1 * inject_Z maturity_years
                       + spec_premium (rating b) + noise) 2)
         bonds.
Proof.
  intros V.
  destruct (generate_bonds_returns base_date count g V)
    as (bonds & g' & E & _ & _ & Hall).
  exists bonds, g'. split; [exact E|].
  eapply Forall_impl; [|exact Hall].
  intros b (m & noise & dn & Hm & Hmat & Hnoise & Hy & _).
  exists m, noise. repeat split; try tauto; try lia.
  rewrite Hy.
  match goal with
  | |- PyNum.round ?x 2 == PyNum.round ?y 2 =>
      assert (x == y) as Exy
        by (rewrite rating_premium_as_stated; ring)
  end.
  rewrite (round_comp 2 _ _ Exy). reflexivity.
Qed.

Lemma generate_bonds_yield_formula_witness :
  exists bonds g',
    generate_bonds sample_now 2 zero_tape = Returned (bonds, g')
    /\ Forall
         (fun b =>
            exists (maturity_years : Z) (noise : Q),
              (1 <= maturity_years <= 30)%Z
              /\ maturity b
                 = PyDate.strftime_ymd
                     (PyDate.add_days sample_now (365 * maturity_years))
              /\ (-0.5 <= noise /\ noise <= 0.5)
              /\ yield_value b
                 == PyNum.round
                      (2.0 + 0.1 * inject_Z maturity_years
                       + spec_premium (rating b) + noise) 2)
         bonds.
Proof.
  apply (generate_bonds_yield_formula sample_now 2 zero_tape).
  exact zero_tape_valid.
Defined.

(** C6 (as amended).  Every record of a batch has [duration >= -0.2],
    and [duration >= 0] when the maturity offset it was built from is
    at least 2 years; only a 1-year offset can give a negative
    duration. *)
Theorem generate_bonds_duration_floor base_date count g :
  valid g ->
  exists bonds g',
    generate_bonds base_date count g = Returned (bonds, g')
    /\ Forall
         (fun b =>
            -0.2 <= duration b
            /\ exists maturity_years : Z,
                 (1 <= maturity_years <= 30)%Z
                 /\ maturity b
                    = PyDate.strftime_ymd
                        (PyDate.add_days base_date (365 * maturity_years))
                 /\ ((2 <= maturity_years)%Z -> 0 <= duration b))
         bonds.
Proof.
  intros V.
  destruct (generate_bonds_returns base_date count g V)
    as (bonds & g' & E & _ & _ & Hall).
  exists bonds, g'. split; [exact E|].
  eapply Forall_impl; [|exact Hall].
  intros b Hb. split; [apply (bond_generated_ranges _ _ Hb)|].
  destruct Hb as (m & noise & dn & Hm & Hmat & _ & _ & _ & Hdn & Hd & _).
  exists m. split; [exact Hm|]. split; [exact Hmat|].
  intros H2. rewrite Hd.
  assert (2 <= inject_Z m) as H2'
    by (change 2 with (inject_Z 2); rewrite <- Zle_Qle; exact H2).
  apply (round_ge 0 _ 0 1); [reflexivity | lra].
Qed.

Lemma generate_bonds_duration_floor_witness :
  exists bonds g',
    generate_bonds sample_now 2 short_duration_tape = Returned (bonds, g')
    /\ Forall
         (fun b =>
            -0.2 <= duration b
            /\ exists maturity_years : Z,
                 (1 <= maturity_years <= 30)%Z
                 /\ maturity b
                    = PyDate.strftime_ymd
                        (PyDate.add_days sample_now (365 * maturity_years))
                 /\ ((2 <= maturity_years)%Z -> 0 <= duration b))
         bonds.
Proof.
  apply (generate_bonds_duration_floor sample_now 2 short_duration_tape).
  exact short_duration_tape_valid.
Defined.

(** C6 as stated fails: a maturity offset of 1 year with duration noise
    -0.94 gives [round(0.85 - 0.94, 1) = -0.1]. *)
Lemma generate_bonds_negative_duration :
  ~ (forall bonds g',
       generate_bonds sample_now 1 short_duration_tape
         = Returned (bonds, g') ->
       Forall (fun b => 0 <= duration b) bonds).
Proof.
  intros H.
  destruct (generate_bonds_returns sample_now 1 short_duration_tape
              short_duration_tape_valid) as (bonds & g' & E & _).
  specialize (H bonds g' E).
  vm_compute in E. injection E as <- _.
  inversion H as [|b l Hb _]; subst.
  vm_compute in Hb. apply Hb. reflexivity.
Qed.

End BondTheorems.

(* ===================================================================== *)
(** ** The historical series *)
(* ===================================================================== *)

Section History.
Import PyRandom MockDataGenerator.
Local Open Scope Z_scope.

Lemma historical_step_returns date w g :
  returns (historical_step date w) g
    (fun w' _ =>
       exists p,
         data w' = (data w ++ [p])%list
         /\ h_date p = date
         /\ price_rounded p).
Proof.
  unfold historical_step, uniform, randint, randbelow.
  change (2 <? -2) with false. cbv iota.
  eexists _, _. split; [reflexivity|].
  eexists. split; [reflexivity|]. split; [reflexivity|].
  eexists. split; reflexivity.
Qed.

Lemma price_rounded_close p : price_rounded p -> price_close p.
Proof.
  intros (w & Hy & Hp). unfold price_close. rewrite Hy, Hp.
  pose proof (round_near w 3) as Hw.
  pose proof (round_near (100 - (w - 3) * 5) 2) as Hq.
  setoid_replace ((1 # 2) / PyNum.pow10 3)%Q with (1 # 2000)%Q in Hw
    by reflexivity.
  setoid_replace ((1 # 2) / PyNum.pow10 2)%Q with (1 # 200)%Q in Hq
    by reflexivity.
  apply Qabs_Qle_condition. split; lra.
Qed.

Lemma history_loop_returns dates g :
  returns
    (for_each dates historical_step
       {| base_yield := 3.5; base_spread := 50; data := [] |}) g
    (fun w _ =>
       map h_date (data w) = dates /\ Forall price_rounded (data w)).
Proof.
  refine (for_each_returns _
            (fun visited w _ =>
               map h_date (data w) = visited
               /\ Forall price_rounded (data w))
            dates _ [] _ g _).
  - intros visited date w g0 (Hd & Hp).
    eapply returns_weaken; [apply historical_step_returns|].
    intros w' _ (p & Edata & Edate & Hprice). rewrite Edata. split.
    + rewrite map_app, Hd. cbn [map]. rewrite Edate. reflexivity.
    + apply Forall_app. split; [exact Hp | constructor; [exact Hprice | constructor]].
  - split; [reflexivity | constructor].
Qed.

Lemma py_range_nth (n : Z) (i : nat) (k : Z) :
  nth_error (py_range n) i = Some k -> k = Z.of_nat i /\ Z.of_nat i < n.
Proof.
  unfold py_range. intros H.
  rewrite nth_error_map in H.
  destruct (nth_error (seq 0 (Z.to_nat n)) i) as [j|] eqn:E; [|discriminate].
  injection H as <-.
  assert (i < List.length (seq 0 (Z.to_nat n)))%nat as Hi
    by (apply nth_error_Some; congruence).
  rewrite length_seq in Hi.
  rewrite nth_error_nth' with (d := 0%nat) in E
    by (rewrite length_seq; exact Hi).
  rewrite seq_nth in E by exact Hi. injection E as <-.
  split; [reflexivity | lia].
Qed.

Lemma py_range_nth_some (n : Z) (i : nat) :
  Z.of_nat i < n -> nth_error (py_range n) i = Some (Z.of_nat i).
Proof.
  intros Hi. unfold py_range. rewrite nth_error_map.
  rewrite nth_error_nth' with (d := 0%nat) by (rewrite length_seq; lia).
  rewrite seq_nth by lia. reflexivity.
Qed.

Lemma days_ending_nth end_ periods i d :
  nth_error (days_ending end_ periods) i = Some d ->
  d = PyDate.add_days end_ (Z.of_nat i - (periods - 1))
  /\ Z.of_nat i < periods.
Proof.
  unfold days_ending. rewrite nth_error_map.
  destruct (nth_error (py_range periods) i) as [k|] eqn:E; [|discriminate].
  intros H. injection H as <-.
  apply py_range_nth in E. destruct E as [-> Hi]. split; [reflexivity | exact Hi].
Qed.

Lemma days_ending_contiguous end_ periods :
  contiguous_days (days_ending end_ periods).
Proof.
  intros i d d' H1 H2.
  apply days_ending_nth in H1. apply days_ending_nth in H2.
  destruct H1 as [-> _], H2 as [-> _].
  unfold PyDate.add_days. cbn [PyDate.ordinal PyDate.micros].
  f_equal. lia.
Qed.

Lemma days_ending_increasing end_ periods :
  strictly_increasing (days_ending end_ periods).
Proof.
  intros i j d d' Hij H1 H2.
  apply days_ending_nth in H1. apply days_ending_nth in H2.
  destruct H1 as [-> _], H2 as [-> _].
  unfold PyDate.instant, PyDate.add_days, PyDate.micros_per_day.
  cbn [PyDate.ordinal PyDate.micros]. lia.
Qed.

Lemma days_ending_last end_ periods :
  1 <= periods ->
  nth_error (days_ending end_ periods) (Z.to_nat (periods - 1)) = Some end_.
Proof.
  intros Hp. unfold days_ending. rewrite nth_error_map.
  rewrite py_range_nth_some by lia. cbn [option_map].
  unfold PyDate.add_days. destruct end_ as [o m].
  cbn [PyDate.ordinal PyDate.micros]. do 2 f_equal. lia.
Qed.

Lemma historical_step_run date w g :
  historical_step date w g
  = Returned
      ({| base_yield := base_yield w + uniform_of (-0.05) 0.05 (tape g (pos g));
          base_spread :=
            base_spread w
            + (-2 + Qfloor (tape g (S (pos g)) * inject_Z (2 - -2 + 1)));
          data :=
            data w
            ++ [ {| h_date := date;
                    h_yield_value :=
                      PyNum.round
                        (base_yield w
                         + uniform_of (-0.05) 0.05 (tape g (pos g))) 3;
                    h_spread :=
                      base_spread w
                      + (-2
                         + Qfloor (tape g (S (pos g)) * inject_Z (2 - -2 + 1)));
                    h_price :=
                      PyNum.round
                        (100
                         - (base_yield w
                            + uniform_of (-0.05) 0.05 (tape g (pos g)) - 3)
                           * 5) 2 |} ] |},
       mkRng (tape g) (S (S (pos g)))).
Proof. reflexivity. Qed.

Lemma walk_draws_run n g :
  walk_draws (S n) g
  = match walk_draws n (mkRng (tape g) (S (S (pos g)))) with
    | Returned (rest, g') =>
        Returned
          ((uniform_of (-0.05) 0.05 (tape g (pos g)),
            -2 + Qfloor (tape g (S (pos g)) * inject_Z (2 - -2 + 1)))
             :: rest, g')
    | Raised e => Raised e
    end.
Proof. reflexivity. Qed.

(** The loop and the replay of its draws end in the same generator
    state, and the points the loop adds are the roundings of the walk
    values reached from the yield it started with. *)
Lemma history_loop_walk dates w g :
  exists draws w' g' pts,
    walk_draws (List.length dates) g = Returned (draws, g')
    /\ for_each dates historical_step w g = Returned (w', g')
    /\ data w' = (data w ++ pts)%list
    /\ map h_yield_value pts
       = map (fun y => PyNum.round y 3)
           (walk_values (base_yield w) (map fst draws))
    /\ map h_price pts
       = map (fun y => PyNum.round (100 - (y - 3) * 5)%Q 2)
           (walk_values (base_yield w) (map fst draws)).
Proof.
  revert w g. induction dates as [|date rest IH]; intros w g.
  - exists [], w, g, []. cbn. rewrite app_nil_r. repeat split; reflexivity.
  - cbn [List.length]. rewrite walk_draws_run, for_each_cons_run.
    rewrite historical_step_run.
    match goal with
    | |- context [for_each rest historical_step ?w1 ?g1] =>
        destruct (IH w1 g1) as (draws & w' & g' & pts & Ed & El & Edata & Ey & Ep)
    end.
    rewrite Ed, El. cbn [data base_yield] in Edata, Ey, Ep.
    eexists _, w', g', (_ :: pts). split; [reflexivity|].
    split; [reflexivity|]. split; [|split].
    + rewrite Edata, <- app_assoc. reflexivity.
    + cbn [map fst walk_values h_yield_value]. rewrite Ey. reflexivity.
    + cbn [map fst walk_values h_price]. rewrite Ep. reflexivity.
Qed.

End History.

Section HistoryTheorems.
Import PyRandom MockDataGenerator.
Local Open Scope Z_scope.

Variable date_range_negative :
  PyDate.datetime -> Z -> outcome (list PyDate.datetime).

Lemma generate_historical_data_nonneg now isin days g :
  0 <= days ->
  returns (generate_historical_data date_range_negative now isin days) g
    (fun pts _ =>
       map h_date pts = days_ending now days /\ Forall price_rounded pts).
Proof.
  intros Hd. unfold generate_historical_data, date_range.
  destruct (Z.ltb_spec days 0) as [Hneg | _]; [lia|].
  apply returns_bind.
  eapply returns_weaken; [apply history_loop_returns|].
  intros w g' H. apply returns_ret. exact H.
Qed.

(** C2 (as amended).  For every [isin] and every [days >= 1],
    [generate_historical_data] returns exactly [days] points whose
    dates are one calendar day apart, strictly increasing and end at
    the clock reading; and the point at each position has
    [yield_value = round(w, 3)] and
    [price = round(100 - (w - 3) * 5, 2)], where [w] is the unrounded
    yield of the walk at that position: 3.5 plus the yield changes the
    loop has drawn up to and including that date (the price is computed
    from the unrounded yield, not from the emitted one).  In
    particular [price] is within 0.0075 of
    [100 - (yield_value - 3) * 5]. *)
Theorem generate_historical_data_series now isin days g :
  1 <= days ->
  exists pts g' draws g'',
    generate_historical_data date_range_negative now isin days g
      = Returned (pts, g')
    /\ series_of (fun p => price_rounded p /\ price_close p) now days pts
    /\ walk_draws (Z.to_nat days) g = Returned (draws, g'')
    /\ map h_yield_value pts
       = map (fun w => PyNum.round w 3)
           (walk_values 3.5 (map fst draws))
    /\ map h_price pts
       = map (fun w => PyNum.round (100 - (w - 3) * 5)%Q 2)
           (walk_values 3.5 (map fst draws)).
Proof.
  intros Hd.
  destruct (generate_historical_data_nonneg now isin days g ltac:(lia))
    as (pts & g' & E & Hdates & Hprice).
  destruct (history_loop_walk (days_ending now days)
              {| base_yield := 3.5; base_spread := 50; data := [] |} g)
    as (draws & w' & g'' & pts' & Ed & El & Edata & Ey & Ep).
  assert (List.length (days_ending now days) = Z.to_nat days) as Hlen
    by (unfold days_ending, py_range;
        rewrite !length_map, length_seq; reflexivity).
  rewrite Hlen in Ed. cbn [data base_yield app] in Edata, Ey, Ep.
  assert (pts = pts') as <-.
  { unfold generate_historical_data, date_range in E.
    destruct (Z.ltb_spec days 0) as [Hneg | _]; [lia|].
    unfold bind, ret in E. rewrite El in E. injection E as <- _.
    exact Edata. }
  exists pts, g', draws, g''. split; [exact E|]. split.
  - unfold series_of. rewrite Hdates. repeat split.
    + rewrite <- (length_map h_date), Hdates. rewrite Hlen. lia.
    + apply days_ending_contiguous.
    + apply days_ending_increasing.
    + apply days_ending_last, Hd.
    + eapply Forall_impl; [|exact Hprice].
      intros p Hp. split; [exact Hp | apply price_rounded_close, Hp].
  - split; [exact Ed|]. split; [exact Ey | exact Ep].
Qed.

(** C9.  [generate_historical_data(isin, 0)] returns an empty series
    and raises nothing; it draws nothing from [random] either. *)
Theorem generate_historical_data_zero_days now isin g :
  generate_historical_data date_range_negative now isin 0 g
    = Returned ([], g).
Proof. reflexivity. Qed.

(** C7 (as amended).  A negative [count] is not rejected:
    [generate_bonds] returns the empty list, raising nothing and
    drawing nothing.  [generate_historical_data] validates nothing
    itself: a negative [days] reaches [pd.date_range] unchanged, and
    the call raises exactly when [date_range] does, with the same
    exception. *)
Theorem negative_inputs_not_validated now isin n g :
  n < 0 ->
  generate_bonds now n g = Returned ([], g)
  /\ (forall e,
        date_range_negative now n = Raised e ->
        generate_historical_data date_range_negative now isin n g
          = Raised e)
  /\ (forall dates,
        date_range_negative now n = Returned dates ->
        exists pts g',
          generate_historical_data date_range_negative now isin n g
            = Returned (pts, g')
          /\ map h_date pts = dates).
Proof.
  intros Hn. split; [|split].
  - unfold generate_bonds. rewrite py_range_nonpositive by lia. reflexivity.
  - intros e He. unfold generate_historical_data, date_range.
    destruct (Z.ltb_spec n 0) as [_ | Hge]; [|lia].
    rewrite He. reflexivity.
  - intros dates Hdates. unfold generate_historical_data, date_range.
    destruct (Z.ltb_spec n 0) as [_ | Hge]; [|lia].
    rewrite Hdates.
    destruct (history_loop_returns dates g) as (w & g' & E & Hmap & _).
    exists (data w), g'. split; [|exact Hmap].
    unfold bind. rewrite E. reflexivity.
Qed.

End HistoryTheorems.

Section HistoryExamples.
Import PyRandom MockDataGenerator.
Local Open Scope Z_scope.

Lemma generate_historical_data_series_witness :
  exists pts g' draws g'',
    generate_historical_data reject_negative sample_now sample_isin 30
      zero_tape = Returned (pts, g')
    /\ series_of (fun p => price_rounded p /\ price_close p) sample_now 30
         pts
    /\ walk_draws (Z.to_nat 30) zero_tape = Returned (draws, g'')
    /\ map h_yield_value pts
       = map (fun w => PyNum.round w 3)
           (walk_values 3.5 (map fst draws))
    /\ map h_price pts
       = map (fun w => PyNum.round (100 - (w - 3) * 5)%Q 2)
           (walk_values 3.5 (map fst draws)).
Proof.
  apply (generate_historical_data_series reject_negative sample_now
           sample_isin 30 zero_tape).
  lia.
Defined.

(** C2 as stated fails: with first raw draw 0.512 the walk value is
    3.5012, so the emitted yield is 3.501 and the emitted price is
    [round(97.494, 2) = 97.49], while [100 - (3.501 - 3) * 5] is
    97.495. *)
Lemma generate_historical_data_price_not_exact :
  ~ (1 <= 1 ->
     exists pts g',
       generate_historical_data reject_negative sample_now sample_isin 1
         odd_thousandth_tape = Returned (pts, g')
       /\ series_of price_exact sample_now 1 pts).
Proof.
  intros H. destruct (H ltac:(lia)) as (pts & g' & E & _ & _ & _ & _ & Hp).
  vm_compute in E. injection E as <- _.
  inversion Hp as [|p l Hprice _]; subst.
  vm_compute in Hprice. discriminate Hprice.
Qed.

Lemma negative_inputs_not_validated_witness :
  generate_bonds sample_now (-5) zero_tape = Returned ([], zero_tape)
  /\ (forall e,
        reject_negative sample_now (-5) = Raised e ->
        generate_historical_data reject_negative sample_now sample_isin
          (-5) zero_tape = Raised e)
  /\ (forall dates,
        reject_negative sample_now (-5) = Returned dates ->
        exists pts g',
          generate_historical_data reject_negative sample_now sample_isin
            (-5) zero_tape = Returned (pts, g')
          /\ map h_date pts = dates).
Proof.
  apply (negative_inputs_not_validated reject_negative sample_now
           sample_isin (-5) zero_tape).
  lia.
Defined.

(** C7 as stated fails: [generate_bonds(-1)] raises nothing. *)
Lemma generate_bonds_negative_count_not_rejected :
  ~ (-1 < 0 ->
     exists e, generate_bonds sample_now (-1) zero_tape = Raised e).
Proof.
  intros H. destruct (H ltac:(lia)) as (e & E). discriminate E.
Qed.

End HistoryExamples.

(* ===================================================================== *)
(** ** Analytics *)
(* ===================================================================== *)

Section Analytics.
Import PyRandom AnalyticsEngine.
Local Open Scope Q_scope.

Lemma half_tape_valid : valid half_tape.
Proof. intros n. split; [discriminate | reflexivity]. Qed.

Lemma perturb_run (rates : list Q) g :
  perturb rates g
  = Returned (perturbed (tape g) (pos g) rates,
              mkRng (tape g) (pos g + List.length rates)).
Proof.
  revert g. induction rates as [|rate rest IH]; intros g.
  - cbn. rewrite Nat.add_0_r. destruct g; reflexivity.
  - cbn [perturb]. unfold bind at 1, uniform, bind, random, ret.
    rewrite IH. cbn [tape pos List.length].
    rewrite Nat.add_succ_r. reflexivity.
Qed.

Lemma generate_yield_curve_run currency g :
  generate_yield_curve currency g
  = Returned (curve_on (base_rates currency) g,
              mkRng (tape g) (pos g + 11)).
Proof.
  unfold generate_yield_curve, bind. rewrite perturb_run.
  unfold ret, curve_on, TENORS.
  replace (List.length (base_rates currency)) with 11%nat; [reflexivity|].
  unfold base_rates. destruct (String.eqb currency "USD"); reflexivity.
Qed.

Lemma perturbed_in_band (t : nat -> Q) (table : list Q) :
  (forall n, 0 <= t n /\ t n < 1) ->
  forall start,
    Forall2 perturbed_rate table
      (map (fun y => PyNum.round y 3) (perturbed t start table)).
Proof.
  intros Ht. induction table as [|rate rest IH]; intros start.
  - constructor.
  - cbn. constructor; [|apply IH].
    exists (uniform_of (-0.1) 0.1 (t start)). split; [|reflexivity].
    destruct (Ht start) as [H0 H1]. unfold uniform_of. split; lra.
Qed.

End Analytics.

Section AnalyticsTheorems.
Import PyRandom AnalyticsEngine.
Local Open Scope Q_scope.

(** C4.  For every currency string, [generate_yield_curve] returns two
    parallel arrays of length 11; the tenors are exactly
    0.25, 0.5, 1, 2, 3, 5, 7, 10, 15, 20, 30, in ascending order; and
    each yield is the base-table rate at the same position plus some
    perturbation in [[-0.1, 0.1]], rounded to 3 decimals. *)
Theorem generate_yield_curve_shape currency g :
  valid g ->
  exists curve g',
    generate_yield_curve currency g = Returned (curve, g')
    /\ List.length (tenors curve) = 11%nat
    /\ List.length (yields curve) = 11%nat
    /\ tenors curve = [0.25; 0.5; 1; 2; 3; 5; 7; 10; 15; 20; 30]
    /\ StronglySorted Qlt (tenors curve)
    /\ Forall2 perturbed_rate (base_rates currency) (yields curve).
Proof.
  intros V. eexists _, _. split; [apply generate_yield_curve_run|].
  cbn [tenors yields curve_on].
  split; [reflexivity|]. split.
  - rewrite length_map. unfold perturbed.
    rewrite length_map, length_combine, length_seq, Nat.min_id.
    unfold base_rates. destruct (String.eqb currency "USD"); reflexivity.
  - split; [reflexivity|]. split.
    + repeat (constructor; [|repeat (constructor; [reflexivity|]); constructor]).
      constructor.
    + apply perturbed_in_band, V.
Qed.

Lemma generate_yield_curve_shape_witness :
  exists curve g',
    generate_yield_curve "EUR" half_tape = Returned (curve, g')
    /\ List.length (tenors curve) = 11%nat
    /\ List.length (yields curve) = 11%nat
    /\ tenors curve = [0.25; 0.5; 1; 2; 3; 5; 7; 10; 15; 20; 30]
    /\ StronglySorted Qlt (tenors curve)
    /\ Forall2 perturbed_rate (base_rates "EUR") (yields curve).
Proof.
  apply (generate_yield_curve_shape "EUR" half_tape).
  exact half_tape_valid.
Defined.

(** C5.  [generate_yield_curve] never raises and tells currencies
    apart only as "USD" or not: for the string "USD" the curve is built
    on 3.5, 3.7, 3.9, 4.0, 4.1, 4.2, 4.3, 4.4, 4.5, 4.6, 4.7, and for
    every other string, a known currency code or not, on
    2.5, 2.7, 2.9, 3.0, 3.1, 3.2, 3.3, 3.4, 3.5, 3.6, 3.7; either way
    the call returns, having read 11 draws. *)
Theorem generate_yield_curve_two_tables currency g :
  generate_yield_curve "USD" g
  = Returned
      (curve_on [3.5; 3.7; 3.9; 4.0; 4.1; 4.2; 4.3; 4.4; 4.5; 4.6; 4.7] g,
       mkRng (tape g) (pos g + 11))
  /\ (currency <> "USD"%string ->
      generate_yield_curve currency g
      = Returned
          (curve_on [2.5; 2.7; 2.9; 3.0; 3.1; 3.2; 3.3; 3.4; 3.5; 3.6; 3.7] g,
           mkRng (tape g) (pos g + 11))).
Proof.
  split.
  - apply generate_yield_curve_run.
  - intros Hc. rewrite generate_yield_curve_run. unfold base_rates.
    destruct (String.eqb_spec currency "USD") as [E | _]; [contradiction|].
    reflexivity.
Qed.

Lemma generate_yield_curve_two_tables_witness :
  generate_yield_curve "USD" half_tape
  = Returned
      (curve_on [3.5; 3.7; 3.9; 4.0; 4.1; 4.2; 4.3; 4.4; 4.5; 4.6; 4.7]
         half_tape,
       mkRng (tape half_tape) (pos half_tape + 11))
  /\ ("XYZ"%string <> "USD"%string ->
      generate_yield_curve "XYZ" half_tape
      = Returned
          (curve_on [2.5; 2.7; 2.9; 3.0; 3.1; 3.2; 3.3; 3.4; 3.5; 3.6; 3.7]
             half_tape,
           mkRng (tape half_tape) (pos half_tape + 11))).
Proof. exact (generate_yield_curve_two_tables "XYZ" half_tape). Defined.

(** C8.  For every bond and holding period, [calculate_total_return]
    returns [(coupon / 100 * holding_period_days / 365 + r) * 100]
    rounded to 2 decimals, for some [r] in [[-0.02, 0.02]]. *)
Theorem calculate_total_return_formula bond holding_period_days g :
  valid g ->
  exists (r v : Q) g',
    calculate_total_return bond holding_period_days g = Returned (v, g')
    /\ (-0.02 <= r /\ r <= 0.02)
    /\ v == PyNum.round
              ((coupon bond / 100 * (inject_Z holding_period_days / 365) + r)
               * 100) 2.
Proof.
  intros V. unfold calculate_total_return.
  destruct (uniform_returns (-2) 2 g ltac:(lra) V)
    as (u & g' & E & _ & Hu).
  exists (u / 100). eexists _, g'. split; [|split].
  - unfold bind. rewrite E. reflexivity.
  - split.
    + apply Qle_shift_div_l; [reflexivity | lra].
    + apply Qle_shift_div_r; [reflexivity | lra].
  - reflexivity.
Qed.

Lemma calculate_total_return_formula_witness :
  exists (r v : Q) g',
    calculate_total_return sample_bond 30 half_tape = Returned (v, g')
    /\ (-0.02 <= r /\ r <= 0.02)
    /\ v == PyNum.round
              ((coupon sample_bond / 100 * (inject_Z 30 / 365) + r) * 100) 2.
Proof.
  apply (calculate_total_return_formula sample_bond 30 half_tape).
  exact half_tape_valid.
Defined.

(** C10.  [calculate_total_return] reads only the coupon of its bond:
    two bonds with the same coupon, whatever their other fields, give
    the same result and leave the same generator state, for every
    holding period and every state of the generator. *)
Theorem calculate_total_return_coupon_only
    (bond1 bond2 : Bond) holding_period_days g :
  coupon bond1 == coupon bond2 ->
  calculate_total_return bond1 holding_period_days g
  = calculate_total_return bond2 holding_period_days g.
Proof.
  intros Hc. unfold calculate_total_return, uniform.
  unfold bind, random, ret. do 2 f_equal.
  apply (round_comp 2). rewrite Hc. reflexivity.
Qed.

Lemma calculate_total_return_coupon_only_witness :
  calculate_total_return sample_bond 90 half_tape
  = calculate_total_return other_bond 90 half_tape.
Proof.
  apply (calculate_total_return_coupon_only sample_bond other_bond 90
           half_tape).
  reflexivity.
Defined.

End AnalyticsTheorems.

(* ===================================================================== *)
(** ** Records of a batch, draw by draw *)
(* ===================================================================== *)

Section Records.
Import PyRandom MockDataGenerator.
Local Open Scope py_scope.

Lemma valid_advance g n : valid g -> valid (advance g n).
Proof. intros V k. apply (V k). Qed.

Lemma advance_advance g a b : advance (advance g a) b = advance g (a + b).
Proof. unfold advance. cbn [tape pos]. f_equal. lia. Qed.

Lemma uniform_steps (a b : Q) g :
  (a <= b)%Q -> valid g ->
  returns (uniform a b) g
    (fun u g' => g' = advance g 1 /\ (a <= u /\ u <= b)%Q).
Proof.
  intros Hab V.
  destruct (uniform_returns a b g Hab V) as (u & g' & E & _ & Hu).
  exists u, g'. split; [exact E|]. split; [|exact Hu].
  unfold uniform, bind, random, ret in E. injection E as _ <-. reflexivity.
Qed.

Lemma randint_steps (a b : Z) g :
  a <= b -> valid g ->
  returns (randint a b) g (fun k g' => g' = advance g 1 /\ a <= k <= b).
Proof.
  intros Hab V.
  destruct (randint_returns a b g Hab V) as (k & g' & E & _ & Hk).
  exists k, g'. split; [exact E|]. split; [|exact Hk].
  unfold randint in E. destruct (Z.ltb_spec b a) as [Hlt | _]; [lia|].
  unfold randbelow, bind, random, ret in E. injection E as _ <-. reflexivity.
Qed.

Lemma choice_steps {A} (xs : list A) g :
  xs <> [] -> valid g ->
  returns (choice xs) g (fun x g' => g' = advance g 1 /\ In x xs).
Proof.
  intros Hne V.
  destruct (choice_returns xs g Hne V) as (x & g' & E & _ & Hx).
  exists x, g'. split; [exact E|]. split; [|exact Hx].
  unfold choice in E. destruct xs as [|x0 xs']; [congruence|].
  unfold randbelow, bind, random, ret in E.
  destruct (nth_error _ _) in E; [|discriminate].
  injection E as _ <-. reflexivity.
Qed.

Ltac draw lemma :=
  apply returns_bind; eapply returns_weaken;
  [apply lemma;
   first [lia | lra | discriminate | apply valid_advance; assumption
         | assumption]
    ..
  | cbv beta].

Lemma generate_bond_built base_date i g :
  valid g ->
  returns (generate_bond base_date i) g
    (fun b g' => g' = advance g 11 /\ bond_built base_date i b).
Proof.
  intros V. unfold generate_bond.
  draw randint_steps. intros maturity_years g1 (-> & Hm).
  draw (@choice_steps string). intros sec g2 (-> & Hsec).
  draw (@choice_steps string). intros rat g3 (-> & Hrat).
  draw uniform_steps. intros noise g4 (-> & Hnoise).
  draw uniform_steps. intros shown g5 (-> & Hshown).
  draw uniform_steps. intros cpn g6 (-> & Hcpn).
  draw randint_steps. intros spr g7 (-> & Hspr).
  draw uniform_steps. intros dn g8 (-> & Hdn).
  draw (@choice_steps string). intros cur g9 (-> & Hcur).
  draw uniform_steps. intros pn g10 (-> & Hpn).
  draw (@choice_steps Z). intros size g11 (-> & Hsize).
  apply returns_ret. split; [reflexivity|].
  exists maturity_years, sec, rat, noise, shown, cpn, spr, dn, cur, pn, size.
  repeat (split; [assumption|]). reflexivity.
Qed.

Lemma generate_bonds_built base_date count g :
  valid g ->
  returns (generate_bonds base_date count) g
    (fun bonds g' =>
       g' = advance g (11 * List.length (py_range count))
       /\ Forall2 (bond_built base_date) (py_range count) bonds).
Proof.
  intros V. unfold generate_bonds.
  refine (for_each_returns _
            (fun visited bonds g' =>
               g' = advance g (11 * List.length visited)
               /\ Forall2 (bond_built base_date) visited bonds)
            (py_range count) _ [] [] g _).
  - intros visited i bonds g0 (-> & Hall).
    apply returns_bind. eapply returns_weaken;
      [apply generate_bond_built, valid_advance, V|].
    intros b g1 (-> & Hb). apply returns_ret. split.
    + rewrite advance_advance, length_app. cbn [List.length]. f_equal. lia.
    + apply Forall2_app; [exact Hall | constructor; [exact Hb | constructor]].
  - split; [|constructor]. unfold advance. destruct g; reflexivity.
Qed.

End Records.

Section Isins.
Import PyRandom MockDataGenerator.
Local Open Scope Z_scope.

Lemma Forall2_nth_error_r {A B} (R : A -> B -> Prop) xs ys k y :
  Forall2 R xs ys -> nth_error ys k = Some y ->
  exists x, nth_error xs k = Some x /\ R x y.
Proof.
  intros H. revert k. induction H as [|x0 y0 xs ys H0 _ IH]; intros k Hk.
  - destruct k; discriminate.
  - destruct k as [|k].
    + injection Hk as <-. exists x0. split; [reflexivity | exact H0].
    + apply IH, Hk.
Qed.

Lemma Forall2_map_eq {A B C} (R : A -> B -> Prop) (f : B -> C) (h : A -> C)
    xs ys :
  (forall x y, R x y -> f y = h x) -> Forall2 R xs ys -> map f ys = map h xs.
Proof.
  intros Hf H. induction H as [|x y xs ys H0 _ IH]; [reflexivity|].
  cbn [map]. rewrite IH, (Hf _ _ H0). reflexivity.
Qed.

Lemma py_range_NoDup n : NoDup (py_range n).
Proof.
  unfold py_range. apply NoDup_map_NoDup_ForallPairs; [|apply seq_NoDup].
  intros a b _ _ H. lia.
Qed.

Lemma py_range_nonneg n i : In i (py_range n) -> 0 <= i.
Proof.
  unfold py_range. rewrite in_map_iff. intros (k & <- & _). lia.
Qed.

(** [str(i)] of a non-negative int is its digits, without a sign. *)
Lemma str_digits i :
  0 <= i ->
  exists d c rest,
    PyNum.str i = NilEmpty.string_of_uint d
    /\ Z.of_uint d = i
    /\ PyNum.str i = String c rest
    /\ Ascii.eqb c "-" = false /\ Ascii.eqb c "+" = false.
Proof.
  intros Hi. unfold PyNum.str.
  pose proof (DecimalZ.of_to i) as Hof.
  destruct (Z.to_int i) as [d | d] eqn:E.
  - cbn [Z.of_int] in Hof.
    assert (d <> Decimal.Nil) as Hd.
    { destruct i as [|p|p]; unfold Z.to_int in E.
      - injection E as <-. discriminate.
      - injection E as <-. apply DecimalPos.Unsigned.to_uint_nonnil.
      - discriminate E. }
    destruct d; try congruence;
      match goal with
      | |- context [Decimal.Pos ?dd] => exists dd
      end;
      eexists _, _; (split; [reflexivity|]); (split; [exact Hof|]);
      (split; [reflexivity|]); split; reflexivity.
  - destruct i as [|p|p]; unfold Z.to_int in E; try discriminate. lia.
Qed.

Lemma uint_of_zeros n s :
  NilEmpty.uint_of_string (PyNum.zeros n ++ s)
  = option_map (Nat.iter n Decimal.D0) (NilEmpty.uint_of_string s).
Proof.
  induction n as [|n IH].
  - cbn. destruct (NilEmpty.uint_of_string s); reflexivity.
  - change (PyNum.zeros (S n) ++ s)%string
      with (String "0" (PyNum.zeros n ++ s)).
    cbn [NilEmpty.uint_of_string]. rewrite IH.
    destruct (NilEmpty.uint_of_string s); reflexivity.
Qed.

Lemma of_uint_zeros n d : Z.of_uint (Nat.iter n Decimal.D0 d) = Z.of_uint d.
Proof. induction n as [|n IH]; [reflexivity | exact IH]. Qed.

(** Reading the zero-padded digits back gives the index. *)
Lemma digits_value_zfill i width :
  0 <= i -> digits_value (PyNum.zfill (PyNum.str i) width) = Some i.
Proof.
  intros Hi. destruct (str_digits i Hi) as (d & c & rest & Hs & Hv & Hc & Hm & Hp).
  unfold PyNum.zfill, digits_value. rewrite Hc, Hm, Hp. cbn [orb].
  rewrite <- Hc, uint_of_zeros, Hs, NilEmpty.usu. cbn [option_map].
  rewrite of_uint_zeros, Hv. reflexivity.
Qed.

Lemma isin_injective i j :
  0 <= i -> 0 <= j ->
  ("XS" ++ PyNum.zfill (PyNum.str i) 10)%string
  = ("XS" ++ PyNum.zfill (PyNum.str j) 10)%string ->
  i = j.
Proof.
  intros Hi Hj E. cbn in E. injection E as E.
  pose proof (digits_value_zfill i 10 Hi) as Di.
  rewrite E, (digits_value_zfill j 10 Hj) in Di. congruence.
Qed.

Lemma bond_built_isin base_date i b :
  bond_built base_date i b ->
  isin b = ("XS" ++ PyNum.zfill (PyNum.str i) 10)%string.
Proof.
  intros (m & sec & rat & noise & shown & cpn & spr & dn & cur & pn & size
          & H). decompose [and] H. subst b. reflexivity.
Qed.

End Isins.

Section BatchTheorems.
Import PyRandom MockDataGenerator.
Local Open Scope Q_scope.

Lemma Forall2_Forall_r {A B} (R : A -> B -> Prop) (P : B -> Prop) xs ys :
  (forall x y, R x y -> P y) -> Forall2 R xs ys -> Forall P ys.
Proof.
  intros HP H. induction H as [|x y xs ys H0 _ IH]; constructor.
  - exact (HP _ _ H0).
  - exact IH.
Qed.

Lemma rating_premium_listed rat :
  In rat RATINGS -> rating_premium rat = 0.5 \/ rating_premium rat = 1.5.
Proof.
  intros H. repeat (destruct H as [<- | H]; [auto|]). destruct H.
Qed.

Lemma bond_built_derived_ranges base_date i b :
  bond_built base_date i b -> in_derived_ranges b.
Proof.
  intros (m & sec & rat & noise & shown & cpn & spr & dn & cur & pn & size
          & Hm & _ & Hrat & Hnoise & _ & Hcpn & _ & _ & _ & Hpn & Hsize & ->).
  apply maturity_years_as_float in Hm.
  unfold in_derived_ranges, bond_of_draws.
  cbn [yield_value coupon price issue_size].
  set (y := PyNum.round _ 2).
  assert (2.1 <= y /\ y <= 7) as Hy.
  { unfold y. destruct (rating_premium_listed rat Hrat) as [-> | ->]; split.
    - apply (round_ge 2.1 _ 210 2); [reflexivity | lra].
    - apply (round_le 7 _ 700 2); [reflexivity | lra].
    - apply (round_ge 2.1 _ 210 2); [reflexivity | lra].
    - apply (round_le 7 _ 700 2); [reflexivity | lra]. }
  split; [exact Hy|]. split.
  - split.
    + apply (round_ge 1 _ 100 2); [reflexivity | tauto].
    + apply (round_le 6 _ 600 2); [reflexivity | tauto].
  - split; [split; lra|]. split; [|exact Hsize].
    apply Qabs_Qle_condition. split; lra.
Qed.

Lemma generate_bonds_at base_date count g :
  valid g ->
  exists bonds,
    generate_bonds base_date count g
      = Returned (bonds, advance g (11 * Z.to_nat count))
    /\ List.length bonds = Z.to_nat count
    /\ Forall2 (bond_built base_date) (py_range count) bonds.
Proof.
  intros V.
  destruct (generate_bonds_built base_date count g V)
    as (bonds & g' & E & -> & Hall).
  assert (List.length (py_range count) = Z.to_nat count) as Hlen
    by (unfold py_range; rewrite length_map, length_seq; reflexivity).
  exists bonds. rewrite Hlen in E. split; [exact E|]. split; [|exact Hall].
  rewrite <- (Forall2_length Hall). exact Hlen.
Qed.

Lemma built_isins_NoDup base_date count bonds :
  Forall2 (bond_built base_date) (py_range count) bonds ->
  NoDup (map isin bonds).
Proof.
  intros Hall.
  rewrite (Forall2_map_eq _ isin
             (fun i => ("XS" ++ PyNum.zfill (PyNum.str i) 10)%string)
             _ _ (bond_built_isin base_date) Hall).
  apply NoDup_map_NoDup_ForallPairs; [|apply py_range_NoDup].
  intros i j Hi Hj. apply isin_injective; eapply py_range_nonneg; eassumption.
Qed.

(** X1.  The k-th record of a batch carries the isin XS followed by k
    zero-padded to ten digits, and no two records of a batch share an
    isin. *)
Theorem generate_bonds_isins base_date count g :
  valid g ->
  exists bonds g',
    generate_bonds base_date count g = Returned (bonds, g')
    /\ (forall k b,
          nth_error bonds k = Some b ->
          isin b = ("XS" ++ PyNum.zfill (PyNum.str (Z.of_nat k)) 10)%string)
    /\ NoDup (map isin bonds).
Proof.
  intros V.
  destruct (generate_bonds_at base_date count g V) as (bonds & E & _ & Hall).
  exists bonds, (advance g (11 * Z.to_nat count)).
  split; [exact E|]. split.
  - intros k b Hk.
    destruct (Forall2_nth_error_r _ _ _ _ _ Hall Hk) as (i & Hi & Hb).
    apply py_range_nth in Hi. destruct Hi as [-> _].
    apply (bond_built_isin _ _ _ Hb).
  - apply (built_isins_NoDup _ _ _ Hall).
Qed.

Lemma generate_bonds_isins_witness :
  exists bonds g',
    generate_bonds sample_now 3 zero_tape = Returned (bonds, g')
    /\ (forall k b,
          nth_error bonds k = Some b ->
          isin b = ("XS" ++ PyNum.zfill (PyNum.str (Z.of_nat k)) 10)%string)
    /\ NoDup (map isin bonds).
Proof.
  apply (generate_bonds_isins sample_now 3 zero_tape).
  exact zero_tape_valid.
Defined.

(** X2.  Every record of a batch has its yield in [[2.1, 7]], its coupon in
    [[1, 6]], its price within 2 of [100 - (yield_value - 3) * 5] and so
    in [[78, 106.5]], and one of the four issue sizes. *)
Theorem generate_bonds_derived_ranges base_date count g :
  valid g ->
  exists bonds g',
    generate_bonds base_date count g = Returned (bonds, g')
    /\ Forall in_derived_ranges bonds.
Proof.
  intros V.
  destruct (generate_bonds_at base_date count g V) as (bonds & E & _ & Hall).
  eexists _, _. split; [exact E|].
  apply (Forall2_Forall_r _ _ _ _ (bond_built_derived_ranges base_date) Hall).
Qed.

Lemma generate_bonds_derived_ranges_witness :
  exists bonds g',
    generate_bonds sample_now 4 short_duration_tape = Returned (bonds, g')
    /\ Forall in_derived_ranges bonds.
Proof.
  apply (generate_bonds_derived_ranges sample_now 4 short_duration_tape).
  exact short_duration_tape_valid.
Defined.





End BatchTheorems.

(* ===================================================================== *)
(** ** How far the historical walk can drift *)
(* ===================================================================== *)

Section Drift.
Import PyRandom MockDataGenerator.
Local Open Scope Q_scope.

Lemma yield_floor_grid (n : Z) :
  3.5 - 0.05 * inject_Z n == inject_Z (3500 - 50 * n) / PyNum.pow10 3.
Proof.
  change (PyNum.pow10 3) with (inject_Z 1000).
  unfold Z.sub. rewrite inject_Z_plus, inject_Z_opp, inject_Z_mult. field.
Qed.

Lemma yield_ceiling_grid (n : Z) :
  3.5 + 0.05 * inject_Z n == inject_Z (3500 + 50 * n) / PyNum.pow10 3.
Proof.
  change (PyNum.pow10 3) with (inject_Z 1000).
  rewrite inject_Z_plus, inject_Z_mult. field.
Qed.

Lemma price_floor_grid (n : Z) :
  97.5 - 0.25 * inject_Z n == inject_Z (9750 - 25 * n) / PyNum.pow10 2.
Proof.
  change (PyNum.pow10 2) with (inject_Z 100).
  unfold Z.sub. rewrite inject_Z_plus, inject_Z_opp, inject_Z_mult. field.
Qed.

Lemma price_ceiling_grid (n : Z) :
  97.5 + 0.25 * inject_Z n == inject_Z (9750 + 25 * n) / PyNum.pow10 2.
Proof.
  change (PyNum.pow10 2) with (inject_Z 100).
  rewrite inject_Z_plus, inject_Z_mult. field.
Qed.

Lemma inject_Z_succ (n : nat) :
  inject_Z (Z.of_nat (S n)) == inject_Z (Z.of_nat n) + 1.
Proof. rewrite Nat2Z.inj_succ, <- Z.add_1_r, inject_Z_plus. reflexivity. Qed.

Lemma historical_step_bounded date w g :
  valid g ->
  returns (historical_step date w) g
    (fun w' g' =>
       valid g'
       /\ exists p,
            data w' = (data w ++ [p])%list
            /\ (base_yield w - 0.05 <= base_yield w'
                /\ base_yield w' <= base_yield w + 0.05)
            /\ (Z.abs (base_spread w' - base_spread w) <= 2)%Z
            /\ h_spread p = base_spread w'
            /\ h_yield_value p = PyNum.round (base_yield w') 3
            /\ h_price p = PyNum.round (100 - (base_yield w' - 3) * 5) 2).
Proof.
  intros V. unfold historical_step.
  apply returns_bind. eapply returns_weaken;
    [apply uniform_returns; [lra | exact V]|].
  intros yc g1 (V1 & Hyc). cbv beta.
  apply returns_bind. eapply returns_weaken;
    [apply randint_returns; [lia | exact V1]|].
  intros sc g2 (V2 & Hsc). cbv beta.
  apply returns_ret. split; [exact V2|].
  eexists. split; [reflexivity|]. cbn [base_yield base_spread h_spread
    h_yield_value h_price].
  split; [split; lra|]. split; [lia|]. repeat split; reflexivity.
Qed.

Lemma walk_invariant_step n w w' p :
  walk_invariant n w ->
  data w' = (data w ++ [p])%list ->
  (base_yield w - 0.05 <= base_yield w'
   /\ base_yield w' <= base_yield w + 0.05) ->
  (Z.abs (base_spread w' - base_spread w) <= 2)%Z ->
  h_spread p = base_spread w' ->
  h_yield_value p = PyNum.round (base_yield w') 3 ->
  h_price p = PyNum.round (100 - (base_yield w' - 3) * 5) 2 ->
  walk_invariant (S n) w'.
Proof.
  intros (Hlen & Hy & Hs & Hdrift & Hfirst & Hsteps & Hlast)
         Edata Hy' Hs' Esp Eyv Epr.
  pose proof (inject_Z_succ n) as HS.
  assert (3.5 - 0.05 * inject_Z (Z.of_nat (S n)) <= base_yield w'
          /\ base_yield w' <= 3.5 + 0.05 * inject_Z (Z.of_nat (S n))) as Hyn
    by (rewrite HS; split; lra).
  assert (Z.abs (base_spread w' - 50) <= 2 * Z.of_nat (S n))%Z as Hsn by lia.
  assert (within_drift n p) as Hp.
  { unfold within_drift. cbv zeta. rewrite Esp, Eyv, Epr.
    split; [exact Hsn|]. split; split.
    - eapply round_ge; [apply yield_floor_grid | tauto].
    - eapply round_le; [apply yield_ceiling_grid | tauto].
    - eapply round_ge; [apply price_floor_grid | lra].
    - eapply round_le; [apply price_ceiling_grid | lra]. }
  unfold walk_invariant. rewrite Edata.
  split; [rewrite length_app, Hlen; cbn; lia|].
  split; [exact Hyn|]. split; [exact Hsn|]. split; [|split; [|split]].
  - intros k q Hk. destruct (Nat.lt_ge_cases k n) as [Hlt | Hge].
    + rewrite nth_error_app1 in Hk by lia. apply Hdrift, Hk.
    + rewrite nth_error_app2 in Hk by lia. rewrite Hlen in Hk.
      destruct (k - n)%nat as [|j] eqn:Ej.
      * injection Hk as <-. replace k with n by lia. exact Hp.
      * destruct j; discriminate.
  - intros q Hq. destruct n as [|n'].
    + rewrite nth_error_app2 in Hq by lia. rewrite Hlen in Hq.
      injection Hq as <-. rewrite Esp. cbn in Hs. lia.
    + rewrite nth_error_app1 in Hq by lia. apply Hfirst, Hq.
  - intros k q r Hq Hr. destruct (Nat.lt_ge_cases (S k) n) as [Hlt | Hge].
    + rewrite nth_error_app1 in Hq, Hr by lia. eapply Hsteps; eassumption.
    + rewrite nth_error_app2 in Hr by lia. rewrite Hlen in Hr.
      destruct (S k - n)%nat as [|j] eqn:Ej; [|destruct j; discriminate].
      injection Hr as <-.
      rewrite nth_error_app1 in Hq by lia.
      assert (n = S k) as En by lia.
      rewrite (Hlast k q En Hq), Esp. exact Hs'.
  - intros m q Em Hq. injection Em as <-.
    rewrite nth_error_app2 in Hq by lia. rewrite Hlen, Nat.sub_diag in Hq.
    injection Hq as <-. exact Esp.
Qed.

Lemma walk_loop_returns dates g :
  valid g ->
  returns
    (for_each dates historical_step
       {| base_yield := 3.5; base_spread := 50; data := [] |}) g
    (fun w g' => valid g' /\ walk_invariant (List.length dates) w).
Proof.
  intros V.
  refine (for_each_returns _
            (fun visited w g' =>
               valid g' /\ walk_invariant (List.length visited) w)
            dates _ [] _ g _).
  - intros visited date w g0 (V0 & Hinv).
    eapply returns_weaken; [apply historical_step_bounded, V0|].
    intros w' g1 (V1 & p & Edata & Hy & Hs & Esp & Eyv & Epr).
    split; [exact V1|]. rewrite length_app, Nat.add_1_r.
    eapply walk_invariant_step; eassumption.
  - split; [exact V|]. unfold walk_invariant. cbn.
    repeat split; try discriminate; try lia;
      intros; match goal with
              | H : nth_error [] ?k = Some _ |- _ => destruct k; discriminate
              end.
Qed.

End Drift.

Section DriftTheorems.
Import PyRandom MockDataGenerator.
Local Open Scope Z_scope.

Variable date_range_negative :
  PyDate.datetime -> Z -> outcome (list PyDate.datetime).

Lemma generate_historical_data_walk now isin days g :
  0 <= days -> valid g ->
  exists w g',
    generate_historical_data date_range_negative now isin days g
      = Returned (data w, g')
    /\ valid g'
    /\ walk_invariant (Z.to_nat days) w
    /\ map h_date (data w) = days_ending now days.
Proof.
  intros Hd V. unfold generate_historical_data, date_range.
  destruct (Z.ltb_spec days 0) as [Hneg | _]; [lia|].
  destruct (walk_loop_returns (days_ending now days) g V)
    as (w & g' & E & V' & Hinv).
  destruct (history_loop_returns (days_ending now days) g)
    as (w2 & g2 & E2 & Hdates & _).
  rewrite E in E2. injection E2 as <- <-.
  exists w, g'. unfold bind. rewrite E.
  split; [reflexivity|]. split; [exact V'|]. split; [|exact Hdates].
  replace (Z.to_nat days) with (List.length (days_ending now days));
    [exact Hinv|].
  unfold days_ending, py_range. rewrite !length_map, length_seq. reflexivity.
Qed.

(** X7.  The point at position [k] of a series is within [k + 1] steps of the
    start of the walk: its spread within [2 (k + 1)] of 50, its yield
    within [0.05 (k + 1)] of 3.5 and its price within [0.25 (k + 1)] of
    97.5.  Nothing pulls the walk back, and nothing lets it jump. *)
Theorem generate_historical_data_drift now isin days g :
  0 <= days -> valid g ->
  exists pts g',
    generate_historical_data date_range_negative now isin days g
      = Returned (pts, g')
    /\ forall k p, nth_error pts k = Some p -> within_drift k p.
Proof.
  intros Hd V.
  destruct (generate_historical_data_walk now isin days g Hd V)
    as (w & g' & E & _ & Hinv & _).
  exists (data w), g'. split; [exact E|].
  destruct Hinv as (_ & _ & _ & Hdrift & _). exact Hdrift.
Qed.

(** X8.  The spread of the first point is within 2 bp of 50 and the spread
    change between consecutive points, as [calculate_spread_change]
    computes it, is within 2 bp. *)
Theorem generate_historical_data_spread_steps now isin days g :
  0 <= days -> valid g ->
  exists pts g',
    generate_historical_data date_range_negative now isin days g
      = Returned (pts, g')
    /\ (forall p,
          nth_error pts 0 = Some p ->
          Z.abs (AnalyticsEngine.calculate_spread_change (h_spread p) 50)
          <= 2)
    /\ (forall k p q,
          nth_error pts k = Some p -> nth_error pts (S k) = Some q ->
          Z.abs (AnalyticsEngine.calculate_spread_change
                   (h_spread q) (h_spread p)) <= 2).
Proof.
  intros Hd V.
  destruct (generate_historical_data_walk now isin days g Hd V)
    as (w & g' & E & _ & Hinv & _).
  exists (data w), g'. split; [exact E|].
  destruct Hinv as (_ & _ & _ & _ & Hfirst & Hsteps & _).
  unfold AnalyticsEngine.calculate_spread_change. split; assumption.
Qed.

End DriftTheorems.

Section DriftExamples.
Import PyRandom MockDataGenerator.
Local Open Scope Z_scope.

Lemma generate_historical_data_drift_witness :
  exists pts g',
    generate_historical_data reject_negative sample_now sample_isin 7
      half_tape = Returned (pts, g')
    /\ forall k p, nth_error pts k = Some p -> within_drift k p.
Proof.
  apply (generate_historical_data_drift reject_negative sample_now
           sample_isin 7 half_tape).
  - lia.
  - exact half_tape_valid.
Defined.

Lemma generate_historical_data_spread_steps_witness :
  exists pts g',
    generate_historical_data reject_negative sample_now sample_isin 7
      zero_tape = Returned (pts, g')
    /\ (forall p,
          nth_error pts 0 = Some p ->
          Z.abs (AnalyticsEngine.calculate_spread_change (h_spread p) 50)
          <= 2)
    /\ (forall k p q,
          nth_error pts k = Some p -> nth_error pts (S k) = Some q ->
          Z.abs (AnalyticsEngine.calculate_spread_change
                   (h_spread q) (h_spread p)) <= 2).
Proof.
  apply (generate_historical_data_spread_steps reject_negative sample_now
           sample_isin 7 zero_tape).
  - lia.
  - exact zero_tape_valid.
Defined.

End DriftExamples.

(* ===================================================================== *)
(** ** Placeholders and routes *)
(* ===================================================================== *)

Section PlaceholderTheorems.
Import PyRandom MockDataGenerator Placeholders.
Local Open Scope Z_scope.

(** X9.  [fetch_bond_data] never returns [None], and the record it returns
    carries the isin XS0000000000 whatever isin was asked for. *)
Theorem fetch_bond_data_ignores_isin now (requested : string) g :
  valid g ->
  exists d g',
    fetch_bond_data now requested g = Returned (Some d, g')
    /\ PyDict.get d "isin" (PyStr EmptyString) = PyStr "XS0000000000".
Proof.
  intros V. unfold fetch_bond_data.
  destruct (generate_bonds_at now 1 g V) as (bonds & E & Hlen & Hall).
  destruct bonds as [|b rest]; [discriminate Hlen|].
  exists (PyDict.asdict b), (advance g (11 * Z.to_nat 1)).
  unfold bind. rewrite E. split; [reflexivity|].
  change (py_range 1) with [0] in Hall.
  inversion Hall as [|i b' is' bs' Hb _]; subst.
  cbn. rewrite (bond_built_isin _ _ _ Hb). reflexivity.
Qed.

Lemma fetch_bond_data_ignores_isin_witness :
  exists d g',
    fetch_bond_data sample_now "XS0000000042" zero_tape
      = Returned (Some d, g')
    /\ PyDict.get d "isin" (PyStr EmptyString) = PyStr "XS0000000000".
Proof.
  apply (fetch_bond_data_ignores_isin sample_now "XS0000000042" zero_tape).
  exact zero_tape_valid.
Defined.

(** X10.  When both dates parse and the start is not after the end,
    [fetch_historical_data] returns as many points as there are whole
    days from the start to the end (the end day itself not counted), and
    their dates end at the clock reading, not at the end date. *)
Theorem fetch_historical_data_window
    (strptime : string -> outcome PyDate.datetime)
    (date_range_negative :
       PyDate.datetime -> Z -> outcome (list PyDate.datetime))
    now (isin start_date end_date : string) (start_ end_ : PyDate.datetime)
    g :
  strptime start_date = Returned start_ ->
  strptime end_date = Returned end_ ->
  PyDate.instant start_ <= PyDate.instant end_ ->
  exists pts g',
    fetch_historical_data strptime date_range_negative now isin start_date
      end_date g = Returned (pts, g')
    /\ Z.of_nat (List.length pts) = timedelta_days end_ start_
    /\ map h_date pts = days_ending now (timedelta_days end_ start_).
Proof.
  intros Es Ee Hle. unfold fetch_historical_data. rewrite Ee, Es.
  assert (0 <= timedelta_days end_ start_) as Hd.
  { unfold timedelta_days, PyDate.micros_per_day.
    apply Z.div_pos; lia. }
  destruct (generate_historical_data_nonneg date_range_negative now isin
              _ g Hd) as (pts & g' & E & Hdates & _).
  exists pts, g'. split; [exact E|]. split; [|exact Hdates].
  rewrite <- (length_map h_date), Hdates.
  unfold days_ending. rewrite length_map. apply py_range_length, Hd.
Qed.

Lemma fetch_historical_data_window_witness :
  exists pts g',
    fetch_historical_data sample_strptime reject_negative sample_now
      sample_isin "2026-10-04" "2026-11-03" zero_tape = Returned (pts, g')
    /\ Z.of_nat (List.length pts)
       = timedelta_days (PyDate.mkDatetime 739923 0)
           (PyDate.mkDatetime 739893 0)
    /\ map h_date pts
       = days_ending sample_now
           (timedelta_days (PyDate.mkDatetime 739923 0)
              (PyDate.mkDatetime 739893 0)).
Proof.
  apply (fetch_historical_data_window sample_strptime reject_negative
           sample_now sample_isin "2026-10-04" "2026-11-03"
           (PyDate.mkDatetime 739893 0) (PyDate.mkDatetime 739923 0)
           zero_tape).
  - reflexivity.
  - reflexivity.
  - vm_compute. discriminate.
Defined.

End PlaceholderTheorems.

Section CurveTheorems.
Import PyRandom AnalyticsEngine.
Local Open Scope Q_scope.

Lemma band_floor_grid (rate : Q) (z : Z) :
  rate == inject_Z z / PyNum.pow10 1 ->
  rate - 0.1 == inject_Z (100 * z - 100) / PyNum.pow10 3.
Proof.
  intros ->. change (PyNum.pow10 1) with (inject_Z 10).
  change (PyNum.pow10 3) with (inject_Z 1000).
  unfold Z.sub. rewrite inject_Z_plus, inject_Z_opp, inject_Z_mult. field.
Qed.

Lemma band_ceiling_grid (rate : Q) (z : Z) :
  rate == inject_Z z / PyNum.pow10 1 ->
  rate + 0.1 == inject_Z (100 * z + 100) / PyNum.pow10 3.
Proof.
  intros ->. change (PyNum.pow10 1) with (inject_Z 10).
  change (PyNum.pow10 3) with (inject_Z 1000).
  rewrite inject_Z_plus, inject_Z_mult. field.
Qed.

Lemma perturbed_within_band (t : nat -> Q) (table : list Q) :
  (forall n, 0 <= t n /\ t n < 1) ->
  Forall one_decimal table ->
  forall start,
    Forall2 within_band table
      (map (fun y => PyNum.round y 3) (perturbed t start table)).
Proof.
  intros Ht Htable. induction Htable as [|rate rest [z Hz] _ IH]; intros start.
  - constructor.
  - cbn. constructor; [|apply IH].
    destruct (Ht start) as [H0 H1]. unfold within_band, uniform_of. split.
    + eapply round_ge; [apply (band_floor_grid _ _ Hz) | lra].
    + eapply round_le; [apply (band_ceiling_grid _ _ Hz) | lra].
Qed.

Lemma base_rates_one_decimal currency :
  Forall one_decimal (base_rates currency).
Proof.
  unfold base_rates, USD_RATES, OTHER_RATES.
  destruct (String.eqb currency "USD");
    repeat (constructor;
            [match goal with
             | |- one_decimal (Qmake ?n 10) => exists n; reflexivity
             | |- one_decimal (Qmake ?n 1) => exists (10 * n)%Z; reflexivity
             end|]);
    constructor.
Qed.

(** X11.  Rounding never pushes a yield out of its band: every yield of a
    curve is within 0.1 of the base rate at its position. *)
Theorem generate_yield_curve_band currency g :
  valid g ->
  exists curve g',
    generate_yield_curve currency g = Returned (curve, g')
    /\ Forall2 within_band (base_rates currency) (yields curve).
Proof.
  intros V. eexists _, _. split; [apply generate_yield_curve_run|].
  cbn [yields curve_on].
  apply perturbed_within_band; [exact V | apply base_rates_one_decimal].
Qed.

Lemma generate_yield_curve_band_witness :
  exists curve g',
    generate_yield_curve "GBP" half_tape = Returned (curve, g')
    /\ Forall2 within_band (base_rates "GBP") (yields curve).
Proof.
  apply (generate_yield_curve_band "GBP" half_tape).
  exact half_tape_valid.
Defined.

Lemma Forall2_join {A B} (R1 R2 : A -> B -> Prop) (R3 : A -> A -> Prop)
    (R : B -> B -> Prop) xs ys us es :
  (forall x y u e, R1 x u -> R2 y e -> R3 x y -> R u e) ->
  Forall2 R1 xs us -> Forall2 R2 ys es -> Forall2 R3 xs ys ->
  Forall2 R us es.
Proof.
  intros HR H1. revert ys es.
  induction H1 as [|x u xs us Hxu _ IH]; intros ys es H2 H3.
  - inversion H3; subst. inversion H2; subst. constructor.
  - inversion H3 as [|x' y xs' ys' Hxy H3']; subst.
    inversion H2 as [|y' e ys'' es' Hye H2']; subst.
    constructor; [eapply HR; eassumption | eapply IH; eassumption].
Qed.

(** X12.  The dictionary [get_yield_curve] hands to [jsonify] has
    exactly the two keys USD and EUR (nothing is said of their order),
    each with a curve of 11 yields, and at every tenor the USD yield is
    at least 0.8 above the EUR yield: the perturbation never makes the
    two curves cross. *)
Theorem get_yield_curve_usd_above_eur g :
  valid g ->
  exists curves usd eur g',
    Routes.get_yield_curve g = Returned (curves, g')
    /\ (forall key curve,
          In (key, curve) curves
          <-> (key = "USD"%string /\ curve = usd)
              \/ (key = "EUR"%string /\ curve = eur))
    /\ List.length (yields usd) = 11%nat
    /\ List.length (yields eur) = 11%nat
    /\ Forall2 (fun u e => e + 0.8 <= u) (yields usd) (yields eur).
Proof.
  intros V.
  set (g1 := mkRng (tape g) (pos g + 11)).
  assert (valid g1) as V1 by (intros n; apply (V n)).
  exists [("USD"%string, curve_on (base_rates "USD") g);
          ("EUR"%string, curve_on (base_rates "EUR") g1)],
         (curve_on (base_rates "USD") g), (curve_on (base_rates "EUR") g1),
         (mkRng (tape g1) (pos g1 + 11)).
  split; [|split; [|split; [|split]]].
  - unfold Routes.get_yield_curve. cbn [for_each]. unfold bind.
    rewrite generate_yield_curve_run. unfold ret. cbn [PyDict.set].
    fold g1. rewrite generate_yield_curve_run. reflexivity.
  - intros key curve. cbn [In]. split.
    + intros [H | [H | []]]; injection H as <- <-; auto.
    + intros [[-> ->] | [-> ->]]; auto.
  - reflexivity.
  - reflexivity.
  - eapply (Forall2_join within_band within_band (fun a b => a == b + 1)).
    + intros x y u e [Hu _] [_ He] Hxy. lra.
    + apply perturbed_within_band; [exact V | apply base_rates_one_decimal].
    + apply perturbed_within_band; [exact V1 | apply base_rates_one_decimal].
    + repeat (constructor; [reflexivity|]). constructor.
Qed.

Lemma get_yield_curve_usd_above_eur_witness :
  exists curves usd eur g',
    Routes.get_yield_curve half_tape = Returned (curves, g')
    /\ (forall key curve,
          In (key, curve) curves
          <-> (key = "USD"%string /\ curve = usd)
              \/ (key = "EUR"%string /\ curve = eur))
    /\ List.length (yields usd) = 11%nat
    /\ List.length (yields eur) = 11%nat
    /\ Forall2 (fun u e => e + 0.8 <= u) (yields usd) (yields eur).
Proof.
  apply (get_yield_curve_usd_above_eur half_tape).
  exact half_tape_valid.
Defined.

(** X13.  The total return is within 2.005 of the coupon accrued over the
    holding period, [coupon * holding_period_days / 365]: the mock price
    return adds at most 2 either way and the rounding at most 0.005. *)
Theorem calculate_total_return_near_accrual bond holding_period_days g :
  valid g ->
  exists v g',
    calculate_total_return bond holding_period_days g = Returned (v, g')
    /\ Qabs (v - coupon bond * inject_Z holding_period_days / 365) <= 2.005.
Proof.
  intros V. unfold calculate_total_return.
  destruct (uniform_returns (-2) 2 g ltac:(lra) V) as (u & g' & E & _ & Hu).
  eexists _, g'. split; [unfold bind; rewrite E; reflexivity|].
  set (accrual := coupon bond * inject_Z holding_period_days / 365).
  match goal with
  | |- context [PyNum.round ?x 2] =>
      assert (x == accrual + u) as Ex by (unfold accrual; field);
      pose proof (round_near x 2) as Hr;
      set (gross := x) in *
  end.
  setoid_replace ((1 # 2) / PyNum.pow10 2) with (1 # 200) in Hr
    by reflexivity.
  apply Qabs_Qle_condition. split; lra.
Qed.

Lemma calculate_total_return_near_accrual_witness :
  exists v g',
    calculate_total_return sample_bond 30 half_tape = Returned (v, g')
    /\ Qabs (v - coupon sample_bond * inject_Z 30 / 365) <= 2.005.
Proof.
  apply (calculate_total_return_near_accrual sample_bond 30 half_tape).
  exact half_tape_valid.
Defined.

End CurveTheorems.

Section RouteTheorems.
Import PyRandom MockDataGenerator.
Local Open Scope Z_scope.

Lemma within_drift_30 k p :
  (k < 30)%nat -> within_drift k p ->
  -10 <= h_spread p <= 110
  /\ (2 <= h_yield_value p /\ h_yield_value p <= 5)%Q
  /\ (90 <= h_price p /\ h_price p <= 105)%Q.
Proof.
  intros Hk (Hs & Hy & Hp). cbv zeta in Hy, Hp.
  assert (1 <= inject_Z (Z.of_nat (S k)) /\ inject_Z (Z.of_nat (S k)) <= 30)%Q
    as Hn.
  { split.
    - change 1%Q with (inject_Z 1). rewrite <- Zle_Qle. lia.
    - change 30%Q with (inject_Z 30). rewrite <- Zle_Qle. lia. }
  split; [lia|]. split; split; lra.
Qed.

Lemma Forall_nth_error {A} (P : A -> Prop) (xs : list A) :
  (forall k x, nth_error xs k = Some x -> P x) -> Forall P xs.
Proof.
  intros H. apply Forall_forall. intros x Hx.
  destruct (In_nth_error _ _ Hx) as (k & Hk). exact (H k x Hk).
Qed.

(** X14.  The answer of [get_historical_data] holds four arrays of 30 entries
    each, the last date being the day of the clock reading; every spread
    lies in [[-10, 110]], every yield in [[2, 5]] and every price in
    [[90, 105]]. *)
Theorem get_historical_data_response
    (date_range_negative :
       PyDate.datetime -> Z -> outcome (list PyDate.datetime))
    now (isin : string) g :
  valid g ->
  exists r g',
    Routes.get_historical_data date_range_negative now isin g
      = Returned (r, g')
    /\ (List.length (Routes.r_dates r) = 30
        /\ List.length (Routes.r_yields r) = 30
        /\ List.length (Routes.r_spreads r) = 30
        /\ List.length (Routes.r_prices r) = 30)%nat
    /\ nth_error (Routes.r_dates r) 29 = Some (PyDate.strftime_ymd now)
    /\ Forall (fun s => -10 <= s <= 110) (Routes.r_spreads r)
    /\ Forall (fun y => 2 <= y /\ y <= 5)%Q (Routes.r_yields r)
    /\ Forall (fun p => 90 <= p /\ p <= 105)%Q (Routes.r_prices r).
Proof.
  intros V. unfold Routes.get_historical_data.
  destruct (generate_historical_data_walk date_range_negative now isin 30 g
              ltac:(lia) V) as (w & g' & E & _ & Hinv & Hdates).
  destruct Hinv as (Hlen & _ & _ & Hdrift & _).
  change (Z.to_nat 30) with 30%nat in Hlen.
  eexists _, g'. unfold bind. rewrite E. split; [reflexivity|].
  cbn [Routes.r_dates Routes.r_yields Routes.r_spreads Routes.r_prices].
  rewrite !length_map.
  assert (forall k p, nth_error (data w) k = Some p ->
            -10 <= h_spread p <= 110
            /\ (2 <= h_yield_value p /\ h_yield_value p <= 5)%Q
            /\ (90 <= h_price p /\ h_price p <= 105)%Q) as Hall.
  { intros k p Hk. apply (within_drift_30 k); [|apply Hdrift, Hk].
    rewrite <- Hlen. apply nth_error_Some. congruence. }
  split; [tauto|]. split.
  - rewrite <- (map_map h_date PyDate.strftime_ymd), Hdates, nth_error_map.
    change 29%nat with (Z.to_nat (30 - 1)).
    rewrite days_ending_last by lia. reflexivity.
  - repeat split; apply Forall_map, Forall_nth_error;
      intros k p Hk; apply (Hall k p Hk).
Qed.

Lemma get_historical_data_response_witness :
  exists r g',
    Routes.get_historical_data reject_negative sample_now sample_isin
      half_tape = Returned (r, g')
    /\ (List.length (Routes.r_dates r) = 30
        /\ List.length (Routes.r_yields r) = 30
        /\ List.length (Routes.r_spreads r) = 30
        /\ List.length (Routes.r_prices r) = 30)%nat
    /\ nth_error (Routes.r_dates r) 29
       = Some (PyDate.strftime_ymd sample_now)
    /\ Forall (fun s => -10 <= s <= 110) (Routes.r_spreads r)
    /\ Forall (fun y => 2 <= y /\ y <= 5)%Q (Routes.r_yields r)
    /\ Forall (fun p => 90 <= p /\ p <= 105)%Q (Routes.r_prices r).
Proof.
  apply (get_historical_data_response reject_negative sample_now
           sample_isin half_tape).
  exact half_tape_valid.
Defined.

(** X15.  [export_bonds] never produces a file: the dictionary of a bond has
    the keys coupon, currency and issue_size, which are not among the
    field names given to the writer, so the first [writerow] raises
    [ValueError]. *)
Theorem export_bonds_raises now g :
  valid g -> Routes.export_bonds now g = Raised ValueError.
Proof.
  intros V. unfold Routes.export_bonds.
  destruct (generate_bonds_at now 20 g V) as (bonds & E & Hlen & _).
  destruct bonds as [|b rest]; [discriminate Hlen|].
  unfold bind. rewrite E. reflexivity.
Qed.

Lemma export_bonds_raises_witness :
  Routes.export_bonds sample_now zero_tape = Raised ValueError.
Proof.
  apply (export_bonds_raises sample_now zero_tape).
  exact zero_tape_valid.
Defined.

Lemma fold_insert_other (bonds : list Bond) (t : Routes.bonds_table) key :
  ~ In key (map isin bonds) ->
  fold_left Routes.insert_or_replace bonds t key = t key.
Proof.
  revert t. induction bonds as [|b rest IH]; intros t Hnot; [reflexivity|].
  cbn [fold_left]. rewrite IH by (intros H; apply Hnot; right; exact H).
  unfold Routes.insert_or_replace.
  destruct (String.eqb_spec key (isin b)) as [-> | _]; [|reflexivity].
  exfalso. apply Hnot. left. reflexivity.
Qed.

Lemma fold_insert_stored (bonds : list Bond) (t : Routes.bonds_table) b :
  NoDup (map isin bonds) -> In b bonds ->
  fold_left Routes.insert_or_replace bonds t (isin b) = Some b.
Proof.
  revert t. induction bonds as [|b0 rest IH]; intros t Hnd Hin; [destruct Hin|].
  cbn [map] in Hnd. inversion Hnd as [|k ks Hfresh Hrest]; subst.
  cbn [fold_left]. destruct Hin as [<- | Hin].
  - rewrite fold_insert_other by exact Hfresh.
    unfold Routes.insert_or_replace. rewrite String.eqb_refl. reflexivity.
  - apply IH; assumption.
Qed.

(** X16.  After [get_bonds], each of the 20 records it answers with is the row
    stored under its isin, whatever the table held before, and the rows
    under all other keys are untouched. *)
Theorem get_bonds_stores_batch now (t : Routes.bonds_table) g :
  valid g ->
  exists bonds t' g',
    Routes.get_bonds now t g = Returned ((t', map PyDict.asdict bonds), g')
    /\ List.length bonds = 20%nat
    /\ (forall b, In b bonds -> t' (isin b) = Some b)
    /\ (forall key, ~ In key (map isin bonds) -> t' key = t key).
Proof.
  intros V. unfold Routes.get_bonds.
  destruct (generate_bonds_at now 20 g V) as (bonds & E & Hlen & Hall).
  pose proof (built_isins_NoDup _ _ _ Hall) as Hnd.
  exists bonds, (fold_left Routes.insert_or_replace bonds t),
         (advance g (11 * Z.to_nat 20)).
  unfold bind. rewrite E. split; [reflexivity|]. split; [exact Hlen|]. split.
  - intros b Hb. apply fold_insert_stored; assumption.
  - intros key Hkey. apply fold_insert_other, Hkey.
Qed.

Lemma get_bonds_stores_batch_witness :
  exists bonds t' g',
    Routes.get_bonds sample_now empty_table zero_tape
      = Returned ((t', map PyDict.asdict bonds), g')
    /\ List.length bonds = 20%nat
    /\ (forall b, In b bonds -> t' (isin b) = Some b)
    /\ (forall key, ~ In key (map isin bonds) -> t' key = empty_table key).
Proof.
  apply (get_bonds_stores_batch sample_now empty_table zero_tape).
  exact zero_tape_valid.
Defined.

End RouteTheorems.

Section MoreBatchTheorems.
Import PyRandom MockDataGenerator.
Local Open Scope Z_scope.

Lemma bond_built_ticker base_date i b :
  bond_built base_date i b -> ticker_well_formed b.
Proof.
  intros (m & sec & rat & noise & shown & cpn & spr & dn & cur & pn & size
          & _ & Hsec & _ & _ & _ & _ & _ & _ & _ & _ & _ & ->).
  unfold ticker_well_formed, bond_of_draws.
  cbn [sector ticker maturity].
  unfold PyDate.year, PyDate.strftime_ymd.
  destruct (PyDate.ymd _) as [[y mo] d].
  exists (PyNum.repr_2dp (PyNum.round shown 2)),
         (PyNum.zfill (PyNum.str mo) 2 ++ "-" ++ PyNum.zfill (PyNum.str d) 2)%string,
         y.
  split; [|split; reflexivity].
  repeat (destruct Hsec as [<- | Hsec]; [cbn; tauto|]). destruct Hsec.
Qed.

(** X5.  Every ticker of a batch starts with GOV, COR, MUN, AGE or SOV, the
    first three letters of the sector in capitals, and ends with the
    year of the record's maturity date. *)
Theorem generate_bonds_tickers base_date count g :
  valid g ->
  exists bonds g',
    generate_bonds base_date count g = Returned (bonds, g')
    /\ Forall ticker_well_formed bonds.
Proof.
  intros V.
  destruct (generate_bonds_at base_date count g V) as (bonds & E & _ & Hall).
  eexists _, _. split; [exact E|].
  apply (Forall2_Forall_r _ _ _ _ (bond_built_ticker base_date) Hall).
Qed.

Lemma generate_bonds_tickers_witness :
  exists bonds g',
    generate_bonds sample_now 3 half_tape = Returned (bonds, g')
    /\ Forall ticker_well_formed bonds.
Proof.
  apply (generate_bonds_tickers sample_now 3 half_tape).
  exact half_tape_valid.
Defined.

(** X17.  Reading the bond list twice refreshes the table: both calls
    answer with 20 records, the second batch carries the same isins
    position by position, and each row written by the first call is
    replaced by the record of the second batch at the same position. *)
Theorem get_bonds_twice_overwrites now1 now2 (t : Routes.bonds_table) g :
  valid g ->
  exists bonds1 bonds2 t1 t2 g1 g2,
    Routes.get_bonds now1 t g
      = Returned ((t1, map PyDict.asdict bonds1), g1)
    /\ Routes.get_bonds now2 t1 g1
       = Returned ((t2, map PyDict.asdict bonds2), g2)
    /\ List.length bonds1 = 20%nat
    /\ List.length bonds2 = 20%nat
    /\ map isin bonds1 = map isin bonds2
    /\ forall k b1,
         nth_error bonds1 k = Some b1 ->
         t1 (isin b1) = Some b1
         /\ exists b2,
              nth_error bonds2 k = Some b2
              /\ isin b2 = isin b1
              /\ t2 (isin b1) = Some b2.
Proof.
  intros V. unfold Routes.get_bonds.
  destruct (generate_bonds_at now1 20 g V) as (bonds1 & E1 & Hlen1 & Hall1).
  set (g1 := advance g (11 * Z.to_nat 20)) in *.
  assert (valid g1) as V1 by apply valid_advance, V.
  destruct (generate_bonds_at now2 20 g1 V1) as (bonds2 & E2 & Hlen2 & Hall2).
  exists bonds1, bonds2,
         (fold_left Routes.insert_or_replace bonds1 t),
         (fold_left Routes.insert_or_replace bonds2
            (fold_left Routes.insert_or_replace bonds1 t)),
         g1, (advance g1 (11 * Z.to_nat 20)).
  unfold bind. rewrite E1, E2. split; [reflexivity|]. split; [reflexivity|].
  split; [exact Hlen1|]. split; [exact Hlen2|]. split.
  - rewrite (Forall2_map_eq _ isin _ _ _ (bond_built_isin now1) Hall1).
    rewrite (Forall2_map_eq _ isin _ _ _ (bond_built_isin now2) Hall2).
    reflexivity.
  - intros k b1 H1.
    destruct (Forall2_nth_error_r _ _ _ _ _ Hall1 H1) as (i1 & Hi1 & Hb1).
    split.
    + apply fold_insert_stored;
        [apply (built_isins_NoDup _ _ _ Hall1) | eapply nth_error_In, H1].
    + assert (k < List.length bonds2)%nat as Hk.
      { rewrite Hlen2, <- Hlen1. apply nth_error_Some. congruence. }
      destruct (nth_error bonds2 k) as [b2|] eqn:H2;
        [|apply nth_error_None in H2; lia].
      destruct (Forall2_nth_error_r _ _ _ _ _ Hall2 H2) as (i2 & Hi2 & Hb2).
      rewrite Hi1 in Hi2. injection Hi2 as <-.
      assert (isin b2 = isin b1) as Eisin
        by (rewrite (bond_built_isin _ _ _ Hb1), (bond_built_isin _ _ _ Hb2);
            reflexivity).
      exists b2. split; [reflexivity|]. split; [exact Eisin|].
      rewrite <- Eisin. apply fold_insert_stored;
        [apply (built_isins_NoDup _ _ _ Hall2) | eapply nth_error_In, H2].
Qed.

Lemma get_bonds_twice_overwrites_witness :
  exists bonds1 bonds2 t1 t2 g1 g2,
    Routes.get_bonds sample_now empty_table zero_tape
      = Returned ((t1, map PyDict.asdict bonds1), g1)
    /\ Routes.get_bonds (PyDate.add_days sample_now 1) t1 g1
       = Returned ((t2, map PyDict.asdict bonds2), g2)
    /\ List.length bonds1 = 20%nat
    /\ List.length bonds2 = 20%nat
    /\ map isin bonds1 = map isin bonds2
    /\ forall k b1,
         nth_error bonds1 k = Some b1 ->
         t1 (isin b1) = Some b1
         /\ exists b2,
              nth_error bonds2 k = Some b2
              /\ isin b2 = isin b1
              /\ t2 (isin b1) = Some b2.
Proof.
  apply (get_bonds_twice_overwrites sample_now
           (PyDate.add_days sample_now 1) empty_table zero_tape).
  exact zero_tape_valid.
Defined.

End MoreBatchTheorems.

Section ClockIndependence.
Import PyRandom MockDataGenerator.
Local Open Scope Z_scope.

Lemma generate_bond_alike base1 base2 i g :
  alike same_but_dates (generate_bond base1 i g) (generate_bond base2 i g).
Proof.
  unfold generate_bond, randint, choice, uniform, randbelow.
  cbn [Z.ltb Z.compare Pos.compare Pos.compare_cont CompOpp].
  unfold bind, random, ret, raise.
  unfold SECTORS, RATINGS, CURRENCIES, ISSUE_SIZES. cbv beta iota.
  repeat match goal with
         | |- context [match nth_error ?l ?k with _ => _ end] =>
             destruct (nth_error l k); cbv beta iota; [|exact eq_refl]
         end.
  unfold alike, same_but_dates. cbn. repeat split; reflexivity.
Qed.

Lemma generate_bonds_loop_alike base1 base2 (xs : list Z) acc1 acc2 g :
  Forall2 same_but_dates acc1 acc2 ->
  alike (Forall2 same_but_dates)
    (for_each xs
       (fun i bonds =>
          bind (generate_bond base1 i) (fun bond => ret (bonds ++ [bond])))
       acc1 g)
    (for_each xs
       (fun i bonds =>
          bind (generate_bond base2 i) (fun bond => ret (bonds ++ [bond])))
       acc2 g).
Proof.
  set (body1 := fun (i : Z) (bonds : list Bond) =>
                  bind (generate_bond base1 i)
                    (fun bond => ret (bonds ++ [bond]))).
  set (body2 := fun (i : Z) (bonds : list Bond) =>
                  bind (generate_bond base2 i)
                    (fun bond => ret (bonds ++ [bond]))).
  assert (forall i acc g0,
            body1 i acc g0
            = match generate_bond base1 i g0 with
              | Returned (b, g') => Returned (acc ++ [b], g')
              | Raised e => Raised e
              end) as R1 by reflexivity.
  assert (forall i acc g0,
            body2 i acc g0
            = match generate_bond base2 i g0 with
              | Returned (b, g') => Returned (acc ++ [b], g')
              | Raised e => Raised e
              end) as R2 by reflexivity.
  clearbody body1 body2.
  revert acc1 acc2 g. induction xs as [|i rest IH]; intros acc1 acc2 g Hacc.
  - split; [reflexivity | exact Hacc].
  - rewrite !for_each_cons_run, R1, R2.
    pose proof (generate_bond_alike base1 base2 i g) as Hb.
    destruct (generate_bond base1 i g) as [[b1 g1] | e1],
             (generate_bond base2 i g) as [[b2 g2] | e2];
      cbn [alike] in Hb; try contradiction.
    + destruct Hb as [<- Hb]. apply IH.
      apply Forall2_app; [exact Hacc | constructor; [exact Hb | constructor]].
    + exact Hb.
Qed.

(** X6.  The clock reading reaches only [ticker] and [maturity]: from the
    same generator state, batches built at two clock readings agree,
    record by record, on every other field, and leave the generator in
    the same state. *)
Theorem generate_bonds_clock_only_dates base1 base2 count g :
  valid g ->
  exists bonds1 bonds2 g',
    generate_bonds base1 count g = Returned (bonds1, g')
    /\ generate_bonds base2 count g = Returned (bonds2, g')
    /\ Forall2 same_but_dates bonds1 bonds2.
Proof.
  intros V.
  destruct (generate_bonds_at base1 count g V) as (bonds1 & E1 & _).
  destruct (generate_bonds_at base2 count g V) as (bonds2 & E2 & _).
  exists bonds1, bonds2, (advance g (11 * Z.to_nat count)).
  split; [exact E1|]. split; [exact E2|].
  pose proof (generate_bonds_loop_alike base1 base2 (py_range count) [] [] g
                (Forall2_nil _)) as H.
  fold (generate_bonds base1 count) in H.
  fold (generate_bonds base2 count) in H.
  rewrite E1, E2 in H. exact (proj2 H).
Qed.

Lemma generate_bonds_clock_only_dates_witness :
  exists bonds1 bonds2 g',
    generate_bonds sample_now 3 half_tape = Returned (bonds1, g')
    /\ generate_bonds (PyDate.add_days sample_now 200) 3 half_tape
       = Returned (bonds2, g')
    /\ Forall2 same_but_dates bonds1 bonds2.
Proof.
  apply (generate_bonds_clock_only_dates sample_now
           (PyDate.add_days sample_now 200) 3 half_tape).
  exact half_tape_valid.
Defined.

End ClockIndependence.
